(** * origamid.tasks: the demo life cycle (reconcile, reclaim, deploy)

    A shallow embedding of [src/origamid/tasks.py].  The three tasks are
    written in a state-and-exception monad over a world made of the demo
    table, the build-log store, the state of the external collaborators
    (container runtime, port allocator, uuid source) and a ghost trace of
    the collaborator calls performed so far.

    Modelling bounds, stated once:
    - a str is a sequence of code points below 256, one character each:
      text with other code points is not represented;
    - exceptions carry no message;
    - only the container runtime can raise; the demo table, the log store,
      the port allocator and the uuid source always answer, and HOME is
      set in the environment;
    - the build stream is taken after [json.loads]: a list of values, or
      the exception that reading or decoding it raised;
    - logging calls have no effect on the state and are left out. *)

From Stdlib Require Import ZArith Ascii String List.
From stdpp Require Import base option list gmap strings.

Local Open Scope string_scope.
Local Open Scope Z_scope.
Local Open Scope list_scope.

(** ** Exceptions *)

(** The exception classes that occur in the module.  [NotFound] is a
    subclass of [APIError] in docker.errors; [BuildError] is not. *)
Inductive exn : Type :=
| NotFound
| APIError
| BuildError
| OrigamiDockerConnectionError
| IndexError
| KeyError
| TypeError
| AttributeError
| OtherError.

#[global] Instance exn_eq_dec : EqDecision exn.
Proof. solve_decision. Defined.

(** An [except C] clause is the test [isinstance(e, C)]. *)
Definition exn_class : Type := exn -> bool.

Definition cls_NotFound : exn_class :=
  fun e => match e with NotFound => true | _ => false end.
Definition cls_APIError : exn_class :=
  fun e => match e with NotFound | APIError => true | _ => false end.
Definition cls_BuildError : exn_class :=
  fun e => match e with BuildError => true | _ => false end.
Definition cls_OrigamiDockerConnectionError : exn_class :=
  fun e => match e with OrigamiDockerConnectionError => true | _ => false end.
Definition cls_IndexError : exn_class :=
  fun e => match e with IndexError => true | _ => false end.
Definition cls_Exception : exn_class := fun _ => true.

(** A transport error of the runtime: an [APIError] that is not the
    expected absence [NotFound]. *)
Definition transport_error (e : exn) : bool :=
  cls_APIError e && negb (cls_NotFound e).

(** ** Python values read from the build stream *)

(** What [json.loads] returns.  A dict is kept as its items in order. *)
#[local] Set Warnings "-register-all".
Inductive json : Type :=
| JNull
| JBool (b : bool)
| JInt (z : Z)
| JFloat (repr : string)
| JStr (s : string)
| JList (l : list json)
| JDict (items : list (string * json)).

Definition result (A : Type) : Type := (exn + A)%type.

Fixpoint dict_get (items : list (string * json)) (k : string) : option json :=
  match items with
  | [] => None
  | (k', v) :: rest => if String.eqb k' k then Some v else dict_get rest k
  end.

(** [x[k]] for a string key [k]. *)
Definition getitem (x : json) (k : string) : result json :=
  match x with
  | JDict items =>
      match dict_get items k with
      | Some v => inr v
      | None => inl KeyError
      end
  | _ => inl TypeError
  end.

(** [l[-n]] for [n >= 1] on a list. *)
Definition getitem_neg {A : Type} (l : list A) (n : nat) : result A :=
  match rev l !! (n - 1)%nat with
  | Some x => inr x
  | None => inl IndexError
  end.

Fixpoint string_drop (n : nat) (s : string) : string :=
  match n, s with
  | O, _ => s
  | S n', String _ s' => string_drop n' s'
  | S _, EmptyString => EmptyString
  end.

(** [x[7:]]: a slice of a str or of a list; no other value of the build
    stream can be sliced. *)
Definition slice_from_7 (x : json) : result json :=
  match x with
  | JStr s => inr (JStr (string_drop 7 s))
  | JList l => inr (JList (drop 7 l))
  | _ => inl TypeError
  end.

(** White space of [str.strip()] among the code points below 256:
    U+0009 to U+000D, U+001C to U+0020, U+0085 and U+00A0. *)
Definition py_isspace (a : ascii) : bool :=
  let n := N_of_ascii a in
  ((9 <=? n) && (n <=? 13) || (28 <=? n) && (n <=? 32)
   || (n =? 133) || (n =? 160))%N.

Fixpoint lstrip (s : string) : string :=
  match s with
  | String a s' => if py_isspace a then lstrip s' else s
  | EmptyString => EmptyString
  end.

Fixpoint string_rev_onto (s acc : string) : string :=
  match s with
  | String a s' => string_rev_onto s' (String a acc)
  | EmptyString => acc
  end.

Definition string_rev (s : string) : string := string_rev_onto s EmptyString.

Definition strip (s : string) : string :=
  string_rev (lstrip (string_rev (lstrip s))).

(** [x.strip()]: only a str has the method. *)
Definition py_strip (x : json) : result string :=
  match x with
  | JStr s => inr (strip s)
  | _ => inl AttributeError
  end.

(** ** The success pattern *)

Definition ascii_lower (a : ascii) : ascii :=
  let n := N_of_ascii a in
  if ((65 <=? n) && (n <=? 90))%N then ascii_of_N (n + 32) else a.

(** The rest of [s] after the literal [p], letters compared without case. *)
Fixpoint match_literal_ci (p s : string) : option string :=
  match p, s with
  | EmptyString, _ => Some s
  | String a p', String b s' =>
      if Ascii.eqb (ascii_lower a) (ascii_lower b)
      then match_literal_ci p' s' else None
  | String _ _, EmptyString => None
  end.

(** What [.*] matches without DOTALL: everything up to the first newline. *)
Fixpoint up_to_newline (s : string) : string :=
  match s with
  | String a s' =>
      if Ascii.eqb a "010"%char then EmptyString else String a (up_to_newline s')
  | EmptyString => EmptyString
  end.

(** [re.match] of the pattern "Successfully built " followed by one group
    of any characters, with flags [re.M | re.I]: the match object is
    represented by its group 1, [None] is no match.  Among the code
    points below 256 a letter of the pattern matches its two ASCII cases
    only; the further matches of [re.I] (U+017F for s, U+0130 and U+0131
    for i) are code points that a str of this model cannot hold. *)
Definition re_match_successfully_built (s : string) : option string :=
  up_to_newline <$> match_literal_ci "Successfully built " s.

(** [match_obj.group(1)]: [None] has no attribute [group]. *)
Definition match_group_1 (match_obj : option string) : result string :=
  match match_obj with
  | Some g => inr g
  | None => inl AttributeError
  end.

(** ** [os.path.join] (posixpath) *)

Definition string_last (s : string) : option ascii :=
  match string_rev s with
  | String a _ => Some a
  | EmptyString => None
  end.

Definition join2 (path b : string) : string :=
  match b with
  | String "/"%char _ => b
  | _ =>
      match string_last path with
      | None | Some "/"%char => path +:+ b
      | Some _ => path +:+ "/" +:+ b
      end
  end.

Definition os_path_join (a : string) (p : list string) : string :=
  foldl join2 a p.

(** ** The state-and-exception monad *)

Definition M (S A : Type) : Type := S -> result A * S.

#[global] Instance M_ret {S : Type} : MRet (M S) :=
  fun A a s => (inr a, s).

#[global] Instance M_bind {S : Type} : MBind (M S) :=
  fun A B k m s =>
    match m s with
    | (inr a, s') => k a s'
    | (inl e, s') => (inl e, s')
    end.

Definition raise {S A : Type} (e : exn) : M S A := fun s => (inl e, s).

Definition of_result {S A : Type} (r : result A) : M S A := fun s => (r, s).

Definition gets {S A : Type} (f : S -> A) : M S A := fun s => (inr (f s), s).

Definition modify {S : Type} (f : S -> S) : M S unit := fun s => (inr tt, f s).

(** The first clause whose class contains the exception handles it. *)
Fixpoint find_handler {H : Type} (clauses : list (exn_class * H)) (e : exn)
  : option H :=
  match clauses with
  | [] => None
  | (c, h) :: rest => if c e then Some h else find_handler rest e
  end.

(** [try: body except C1: h1 except C2: h2 ...]: an exception that no
    clause matches, or that a handler raises, propagates. *)
Definition try_except {S A : Type} (body : M S A)
    (clauses : list (exn_class * M S A)) : M S A :=
  fun s =>
    match body s with
    | (inr a, s') => (inr a, s')
    | (inl e, s') =>
        match find_handler clauses e with
        | Some h => h s'
        | None => (inl e, s')
        end
    end.

(** A computation on the world, run next to a local object. *)
Definition on_world {L W A : Type} (m : M W A) : M (L * W) A :=
  fun '(l, w) => let '(r, w') := m w in (r, (l, w')).

Definition local {L W A : Type} (f : L -> A) : M (L * W) A :=
  gets (fun s => f (fst s)).

Definition set_local {L W : Type} (f : L -> L) : M (L * W) unit :=
  modify (fun s => (f (fst s), snd s)).

(** Runs [m] with the local object [l]; the object is dropped at the end. *)
Definition with_local {L W A : Type} (l : L) (m : M (L * W) A) : M W A :=
  fun w => let '(r, (_, w')) := m (l, w) in (r, w').

(** ** Data model *)

(** A row of the [Demos] table.  [image_id] holds whatever the slice of
    the build record produced (a str for a well-formed record). *)
Record Demo : Type := mkDemo {
  demo_id : string;
  log_id : string;
  status : string;
  container_id : option string;
  image_id : option json;
  port : option Z
}.

Definition set_status (v : string) (d : Demo) : Demo :=
  mkDemo (demo_id d) (log_id d) v (container_id d) (image_id d) (port d).
Definition set_container_id (v : option string) (d : Demo) : Demo :=
  mkDemo (demo_id d) (log_id d) (status d) v (image_id d) (port d).
Definition set_image_id (v : option json) (d : Demo) : Demo :=
  mkDemo (demo_id d) (log_id d) (status d) (container_id d) v (port d).
Definition set_port (v : option Z) (d : Demo) : Demo :=
  mkDemo (demo_id d) (log_id d) (status d) (container_id d) (image_id d) v.

(** Truth value of an optional str and of an optional int: [None], the
    empty str and 0 are false. *)
Definition truthy_str (o : option string) : bool :=
  match o with
  | Some (String _ _) => true
  | _ => false
  end.

Definition truthy_int (o : option Z) : bool :=
  match o with
  | Some z => negb (z =? 0)
  | None => false
  end.

(** A container object of the runtime client: its id and the status the
    runtime reported when the object was fetched. *)
Record Container : Type := mkContainer {
  cont_id : string;
  cont_status : string
}.

(** The constants imported from [origamid.constants] and the values read
    from the process environment; their values are not fixed here.
    [ORIGAMI_WRAPPED_DEMO_PORT] is held as the text that [format] prints
    for it, [origami_static_dir] is what [get_origami_static_dir()]
    returns. *)
Record Constants : Type := mkConstants {
  HOME : string;
  ORIGAMI_CONFIG_DIR : string;
  ORIGAMI_DEMOS_DIRNAME : string;
  ORIGAMI_WRAPPED_DEMO_PORT : string;
  DOCKER_UNIX_SOCKET : string;
  ORIGAMI_DEPLOY_LOGS_DIR : string;
  origami_static_dir : string
}.

(** ** Collaborators *)

(** The calls the tasks make to their collaborators, as a ghost trace. *)
Inductive event : Type :=
| EvGet (cid : string)
| EvStop (cid : string) (timeout : Z)
| EvRemove (cid : string)
| EvBuild (base_url path : string)
| EvRun (image : json) (name port_map : string) (host_port : option Z)
| EvFreePort
| EvUuid
| EvWriteLog (logfile : string)
| EvSave (d : Demo).

(** The container runtime ([docker_client], [APIClient]), the port
    allocator ([get_a_free_port]) and the uuid source, as a state machine
    on an abstract state [E].  The runtime calls may raise. *)
Class External (E : Type) : Type := {
  containers_get : string -> E -> result Container * E;
  container_stop : Container -> Z -> E -> result unit * E;
  container_remove : Container -> E -> result unit * E;
  containers_run : json -> string -> string -> option Z -> E -> result Container * E;
  cli_build : string -> string -> E -> result (list json) * E;
  get_a_free_port : E -> Z * E;
  uuid4_hex : E -> string * E
}.

Record World (E : Type) : Type := mkWorld {
  db : gmap string Demo;
  logs : gmap string (list json);
  ext : E;
  trace : list event
}.
Arguments mkWorld {E} _ _ _ _.
Arguments db {E} _.
Arguments logs {E} _.
Arguments ext {E} _.
Arguments trace {E} _.

Section Tasks.
Context {E : Type} `{External E}.
Variable cfg : Constants.

Definition emit (ev : event) : M (World E) unit :=
  modify (fun w => mkWorld (db w) (logs w) (ext w) (trace w ++ [ev])).

(** A call to a collaborator: recorded, then answered by [E]. *)
Definition ask {A : Type} (op : E -> result A * E) : M (World E) A :=
  fun w => let '(r, e') := op (ext w) in
           (r, mkWorld (db w) (logs w) e' (trace w)).

Definition call {A : Type} (ev : event) (op : E -> result A * E)
  : M (World E) A :=
  emit ev;; ask op.

Definition total {A : Type} (op : E -> A * E) : E -> result A * E :=
  fun e => let '(a, e') := op e in (inr a, e').

Definition docker_get (cid : string) : M (World E) Container :=
  call (EvGet cid) (containers_get cid).
Definition docker_stop (c : Container) (timeout : Z) : M (World E) unit :=
  call (EvStop (cont_id c) timeout) (container_stop c timeout).
Definition docker_remove (c : Container) : M (World E) unit :=
  call (EvRemove (cont_id c)) (container_remove c).
Definition docker_run (image : json) (name port_map : string)
    (host_port : option Z) : M (World E) Container :=
  call (EvRun image name port_map host_port)
       (containers_run image name port_map host_port).
Definition docker_build (base_url path : string) : M (World E) (list json) :=
  call (EvBuild base_url path) (cli_build base_url path).
Definition free_port : M (World E) Z :=
  call EvFreePort (total get_a_free_port).
Definition new_uuid : M (World E) string :=
  call EvUuid (total uuid4_hex).

(** Modelled from the spec: the [Demos] model of [origamid.database] is
    not part of the sources; the Repository of the spec loads a demo by
    its [demo_id] and [save] is an upsert of the whole record. *)
Definition get_or_none (id : string) : M (World E) (option Demo) :=
  gets (fun w => db w !! id).

Definition save (d : Demo) : M (World E) unit :=
  emit (EvSave d);;
  modify (fun w => mkWorld (<[demo_id d := d]> (db w)) (logs w) (ext w) (trace w)).

(** Modelled from the spec: the file mode [LOGS_FILE_MODE_REQ] is not
    part of the sources; the log artifact of a demo is the JSON array of
    the records of the build, written whole. *)
Definition write_log (logfile : string) (response : list json)
  : M (World E) unit :=
  emit (EvWriteLog logfile);;
  modify (fun w => mkWorld (db w) (<[logfile := response]> (logs w)) (ext w) (trace w)).

(** *** Lines 27-54 *)

(** The demo object is the caller's: it is the local object of the
    computation and is mutated in place. *)
Definition update_demo_status : M (Demo * World E) unit :=
  try_except
    (cid ← local container_id;
     if truthy_str cid then
       container ← on_world (docker_get (default "" cid));
       set_local (set_status (cont_status container));;
       demo ← local id;
       on_world (save demo)
     else mret tt)
    [ (cls_NotFound,
       set_local (set_container_id None);;
       set_local (set_status "empty");;
       demo ← local id;
       on_world (save demo));
      (cls_APIError,
       raise OrigamiDockerConnectionError) ].

(** *** Lines 57-118 *)

Definition remove_demo_instance_if_exist (demo_id status : string)
  : M (World E) (option Demo) :=
  o ← get_or_none demo_id;
  match o with
  | Some demo =>
      if truthy_str (container_id demo) then
        let cid := default "" (container_id demo) in
        try_except
          (container ← docker_get cid;
           docker_stop container 10;;
           try_except
             (container ← docker_get cid;
              docker_remove container)
             [ (cls_NotFound, mret tt) ];;
           let demo :=
             set_image_id None (set_container_id None (set_status status demo)) in
           save demo;;
           mret (Some demo))
          [ (cls_NotFound, mret None);
            (cls_APIError,
             save (set_status "error" demo);;
             raise OrigamiDockerConnectionError) ]
      else mret None
  | None => mret None
  end.

(** *** Lines 121-213 *)

Definition dockerfile_dir (demo_id : string) : string :=
  os_path_join (HOME cfg)
    [ORIGAMI_CONFIG_DIR cfg; ORIGAMI_DEMOS_DIRNAME cfg; demo_id].

Definition logfile_of (log_id : string) : string :=
  os_path_join (origami_static_dir cfg) [ORIGAMI_DEPLOY_LOGS_DIR cfg; log_id].

(** [raise BuildError(e)], lines 173 and 177.  [BuildError] is the class
    of docker 3.0 and later, the versions in which [images.build]
    returns the pair that the comment of line 181 indexes: its
    constructor takes a reason and a build log.  The call with the one
    argument [e] therefore raises TypeError before any BuildError
    exists, and that TypeError leaves the handler it was raised in. *)
Definition raise_BuildError_of_one_argument {S A : Type} : M S A :=
  raise TypeError.

(** Lines 166-177: the inner [try]. *)
Definition parse_image_id {S : Type} (match_obj : option string)
    (response : list json) : M S json :=
  try_except
    (of_result (match_group_1 match_obj);;
     r ← of_result (getitem_neg response 2);
     aux ← of_result (getitem r "aux");
     i ← of_result (getitem aux "ID");
     of_result (slice_from_7 i))
    [ (cls_IndexError, raise_BuildError_of_one_argument);
      (cls_Exception, raise_BuildError_of_one_argument) ].

(** Lines 164-177: from the records of the build to the image id. *)
Definition image_id_of_log {S : Type} (response : list json) : M S json :=
  last ← of_result (getitem_neg response 1);
  stream ← of_result (getitem last "stream");
  final_res ← of_result (py_strip stream);
  let match_obj := re_match_successfully_built final_res in
  parse_image_id match_obj response.

(** Lines 183-202: the image id is stored on the demo, a port is
    allocated when the demo has none, the container is started. *)
Definition launch (demo_id : string) (image_id : json)
  : M (Demo * World E) unit :=
  set_local (set_image_id (Some image_id));;
  p ← local port;
  (if negb (truthy_int p) then
     port ← on_world free_port;
     set_local (set_port (Some port))
   else mret tt);;
  p ← local port;
  cont ← on_world (docker_run image_id demo_id
                     (ORIGAMI_WRAPPED_DEMO_PORT cfg +:+ "/tcp") p);
  set_local (set_container_id (Some (cont_id cont)));;
  set_local (set_status "running").

(** Lines 151-202: the body of the outer [try], on the local [demo]. *)
Definition build_and_run (demo_id : string) : M (Demo * World E) unit :=
  response ← on_world (docker_build (DOCKER_UNIX_SOCKET cfg) (dockerfile_dir demo_id));
  log_id ← local log_id;
  on_world (write_log (logfile_of log_id) response);;
  image_id ← image_id_of_log response;
  launch demo_id image_id.

(** Lines 147-211: the outer [try] with its two handlers. *)
Definition try_build_and_run (demo_id : string) : M (Demo * World E) unit :=
  try_except (build_and_run demo_id)
    [ (cls_BuildError, set_local (set_status "error"));
      (cls_APIError, set_local (set_status "error")) ].

(** Lines 139-142: the stored demo, or a new one that is not stored yet. *)
Definition load_or_create (demo_id : string) : M (World E) Demo :=
  o ← get_or_none demo_id;
  match o with
  | Some demo => mret demo
  | None =>
      demo_logs_uid ← new_uuid;
      mret (mkDemo demo_id demo_logs_uid "deploying" None None None)
  end.

(** The world after [demo.save()]. *)
Definition saved (d : Demo) (w : World E) : World E :=
  mkWorld (<[demo_id d := d]> (db w)) (logs w) (ext w) (trace w ++ [EvSave d]).

Definition deploy_demo (demo_id demo_dir : string) : M (World E) unit :=
  aborted ←
    try_except
      (remove_demo_instance_if_exist demo_id "redeploying";; mret false)
      [ (cls_OrigamiDockerConnectionError, mret true) ];
  if aborted : bool then mret tt else
  demo ← load_or_create demo_id;
  with_local demo
    (try_build_and_run demo_id;;
     demo ← local id;
     on_world (save demo)).

(** The world after the build call, and after the log was written. *)
Definition after_build (w : World E) (id : string) (x : E) : World E :=
  mkWorld (db w) (logs w) x
    (trace w ++ [EvBuild (DOCKER_UNIX_SOCKET cfg) (dockerfile_dir id)]).

Definition after_log (w : World E) (id : string) (d : Demo)
    (response : list json) (x : E) : World E :=
  mkWorld (db w) (<[logfile_of (log_id d) := response]> (logs w)) x
    (trace w ++ [EvBuild (DOCKER_UNIX_SOCKET cfg) (dockerfile_dir id)]
       ++ [EvWriteLog (logfile_of (log_id d))]).

End Tasks.

(** ** A simulated runtime

    A concrete instance of the collaborators, used to run the tasks on
    explicit inputs: a table of containers, a fixed fault per kind of
    call, a fixed outcome of the build, and counters for ports and ids. *)
Module Sim.

Inductive op : Type := OpGet | OpStop | OpRemove | OpRun | OpBuild.

Record Docker : Type := mkDocker {
  containers : list (string * (string * bool));
  fault : op -> option exn;
  build_output : result (list json);
  next_port : Z;
  fresh_ids : list string
}.

Definition with_containers (cs : list (string * (string * bool)))
    (d : Docker) : Docker :=
  mkDocker cs (fault d) (build_output d) (next_port d) (fresh_ids d).

Fixpoint find_container (cid : string)
    (cs : list (string * (string * bool))) : option (string * bool) :=
  match cs with
  | [] => None
  | (k, v) :: rest => if String.eqb k cid then Some v else find_container cid rest
  end.

Fixpoint drop_container (cid : string)
    (cs : list (string * (string * bool))) : list (string * (string * bool)) :=
  match cs with
  | [] => []
  | (k, v) :: rest =>
      if String.eqb k cid then drop_container cid rest
      else (k, v) :: drop_container cid rest
  end.

Definition guarded {A : Type} (o : op) (k : Docker -> result A * Docker)
  : Docker -> result A * Docker :=
  fun d => match fault d o with
           | Some e => (inl e, d)
           | None => k d
           end.

Definition get (cid : string) : Docker -> result Container * Docker :=
  guarded OpGet (fun d =>
    match find_container cid (containers d) with
    | Some (st, _) => (inr (mkContainer cid st), d)
    | None => (inl NotFound, d)
    end).

(** A stopped container that was started with [remove=True] is deleted
    by the runtime; another one stays, with status exited. *)
Definition stop (c : Container) (timeout : Z) : Docker -> result unit * Docker :=
  guarded OpStop (fun d =>
    match find_container (cont_id c) (containers d) with
    | Some (_, true) =>
        (inr tt, with_containers (drop_container (cont_id c) (containers d)) d)
    | Some (_, false) =>
        (inr tt, with_containers
                   ((cont_id c, ("exited", false))
                      :: drop_container (cont_id c) (containers d)) d)
    | None => (inl NotFound, d)
    end).

Definition remove (c : Container) : Docker -> result unit * Docker :=
  guarded OpRemove (fun d =>
    match find_container (cont_id c) (containers d) with
    | Some _ =>
        (inr tt, with_containers (drop_container (cont_id c) (containers d)) d)
    | None => (inl NotFound, d)
    end).

Definition run (image : json) (name port_map : string) (host_port : option Z)
  : Docker -> result Container * Docker :=
  guarded OpRun (fun d =>
    let cid := hd "c0" (fresh_ids d) in
    (inr (mkContainer cid "created"),
     mkDocker ((cid, ("running", true)) :: containers d) (fault d)
              (build_output d) (next_port d) (tl (fresh_ids d)))).

Definition build (base_url path : string)
  : Docker -> result (list json) * Docker :=
  guarded OpBuild (fun d => (build_output d, d)).

Definition alloc (d : Docker) : Z * Docker :=
  (next_port d,
   mkDocker (containers d) (fault d) (build_output d) (next_port d + 1)
            (fresh_ids d)).

Definition uuid (d : Docker) : string * Docker :=
  (hd "u0" (fresh_ids d),
   mkDocker (containers d) (fault d) (build_output d) (next_port d)
            (tl (fresh_ids d))).

#[global] Instance docker_external : External Docker := {
  containers_get := get;
  container_stop := stop;
  container_remove := remove;
  containers_run := run;
  cli_build := build;
  get_a_free_port := alloc;
  uuid4_hex := uuid
}.

Definition no_fault : op -> option exn := fun _ => None.

Definition fault_on (o : op) (e : exn) : op -> option exn :=
  fun o' => match o, o' with
            | OpGet, OpGet | OpStop, OpStop | OpRemove, OpRemove
            | OpRun, OpRun | OpBuild, OpBuild => Some e
            | _, _ => None
            end.

Definition cfg : Constants :=
  mkConstants "/home/origami" ".origami" "demos" "9001"
              "unix://var/run/docker.sock" "deploy_logs" "/srv/static".

(** The log of a build that succeeded. *)
Definition good_log : list json :=
  [ JDict [("stream", JStr "Step 1/1 : FROM python:3")];
    JDict [("aux", JDict [("ID", JStr "sha256:deadbeef00")])];
    JDict [("stream", JStr "Successfully built ab12cd34")] ].

(** The log of a build that failed: the runtime ends the stream with an
    error record, which has no stream field. *)
Definition failed_log : list json :=
  [ JDict [("stream", JStr "Step 1/2 : FROM python:3")];
    JDict [("errorDetail", JDict [("message", JStr "pull access denied")]);
           ("error", JStr "pull access denied")] ].

Definition demo1 : Demo :=
  mkDemo "demo1" "log1" "running" (Some "c1") (Some (JStr "0123abcd")) (Some 5000).

Definition world (rows : list Demo) (d : Docker) : World Docker :=
  mkWorld (list_to_map ((fun r => (demo_id r, r)) <$> rows)) ∅ d [].

(** The container c1 of demo1 is up; builds succeed. *)
Definition docker_up : Docker :=
  mkDocker [("c1", ("running", true))] no_fault (inr good_log) 6000 ["c2"; "c3"].

(** The container c1 of demo1 has exited and is still there. *)
Definition docker_exited : Docker :=
  mkDocker [("c1", ("exited", false))] no_fault (inr good_log) 6000 ["c2"; "c3"].

(** The container c1 of demo1 is gone. *)
Definition docker_empty : Docker :=
  mkDocker [] no_fault (inr good_log) 6000 ["c2"; "c3"].

(** The runtime cannot be reached for lookups. *)
Definition docker_down : Docker :=
  mkDocker [("c1", ("running", true))] (fault_on OpGet APIError)
           (inr good_log) 6000 ["c2"; "c3"].

(** Builds end with an error record. *)
Definition docker_failed_build : Docker :=
  mkDocker [("c1", ("running", true))] no_fault (inr failed_log) 6000 ["c2"; "c3"].

(** Builds succeed, the run call raises a transport error. *)
Definition docker_failed_run : Docker :=
  mkDocker [("c1", ("running", true))] (fault_on OpRun APIError)
           (inr good_log) 6000 ["c2"; "c3"].

(** Builds raise a transport error. *)
Definition docker_no_build : Docker :=
  mkDocker [("c1", ("running", true))] (fault_on OpBuild APIError)
           (inr good_log) 6000 ["c2"; "c3"].

(** The stop of a container does not find it any more. *)
Definition docker_stop_gone : Docker :=
  mkDocker [("c1", ("running", true))] (fault_on OpStop NotFound)
           (inr good_log) 6000 ["c2"; "c3"].

(** The stop of a container raises a transport error. *)
Definition docker_stop_down : Docker :=
  mkDocker [("c1", ("running", true))] (fault_on OpStop APIError)
           (inr good_log) 6000 ["c2"; "c3"].

(** The container c1 stays after a stop and its removal raises an
    exception that is no APIError. *)
Definition docker_remove_broken : Docker :=
  mkDocker [("c1", ("running", false))] (fault_on OpRemove OtherError)
           (inr good_log) 6000 ["c2"; "c3"].

(** Lookups raise an exception that is no APIError. *)
Definition docker_get_broken : Docker :=
  mkDocker [("c1", ("running", true))] (fault_on OpGet OtherError)
           (inr good_log) 6000 ["c2"; "c3"].

(** Builds raise an exception that is no APIError. *)
Definition docker_build_broken : Docker :=
  mkDocker [("c1", ("running", true))] (fault_on OpBuild OtherError)
           (inr good_log) 6000 ["c2"; "c3"].

(** The log of a build that stopped after its first step: the last
    record has a text, which is not the success message. *)
Definition unfinished_log : list json :=
  [ JDict [("stream", JStr "Step 1/1 : FROM python:3")] ].

Definition docker_unfinished_build : Docker :=
  mkDocker [("c1", ("running", true))] no_fault (inr unfinished_log) 6000
           ["c2"; "c3"].

(** A demo that was never launched. *)
Definition demo0 : Demo :=
  mkDemo "demo0" "log0" "empty" None None None.

End Sim.

(** ** Predicates of the statements *)

(** The five life-cycle states of the data model. *)
Definition valid_status (s : string) : Prop :=
  s = "empty" ∨ s = "deploying" ∨ s = "redeploying" ∨ s = "running" ∨ s = "error".

(** The demo table is keyed by [demo_id]. *)
Definition db_wf (m : gmap string Demo) : Prop :=
  ∀ k d, m !! k = Some d → demo_id d = k.

Definition db_valid (m : gmap string Demo) : Prop :=
  ∀ k d, m !! k = Some d → valid_status (status d).

Definition is_free_port (ev : event) : bool :=
  match ev with EvFreePort => true | _ => false end.

(** The trace [t'] continues [t] with calls that all satisfy [p]. *)
Definition trace_grows (p : event -> bool) (t t' : list event) : Prop :=
  ∃ evs, t' = t ++ evs ∧ Forall (fun ev => p ev = true) evs.

Definition not_free_port (ev : event) : bool := negb (is_free_port ev).

Definition is_run (ev : event) : bool :=
  match ev with EvRun _ _ _ _ => true | _ => false end.

Definition not_run (ev : event) : bool := negb (is_run ev).

Definition is_save (ev : event) : bool :=
  match ev with EvSave _ => true | _ => false end.

Definition is_uuid (ev : event) : bool :=
  match ev with EvUuid => true | _ => false end.

(** The two records of the example of the image id. *)
Definition aux_record : json :=
  JDict [("aux", JDict [("ID", JStr "sha256:deadbeef00")])].

Definition success_record : json :=
  JDict [("stream", JStr "Successfully built ab12cd34")].

(** The calls of a whole deploy, with any arguments. *)
Definition deploy_event (sock dir : string) (ev : event) : bool :=
  match ev with
  | EvBuild b p => String.eqb b sock && String.eqb p dir
  | _ => true
  end.

(** The calls of a reclaim: lookups, stops, removals and saves. *)
Definition reclaim_event (ev : event) : bool :=
  match ev with
  | EvGet _ | EvStop _ _ | EvRemove _ | EvSave _ => true
  | _ => false
  end.

(** The calls of the build-and-run part of a deploy of [id]: the build
    of the directory [dir] through the socket [sock], the write of the
    log, the port allocation and the start of the container. *)
Definition build_run_event (sock dir : string) (ev : event) : bool :=
  match ev with
  | EvBuild b p => String.eqb b sock && String.eqb p dir
  | EvWriteLog _ | EvFreePort | EvRun _ _ _ _ => true
  | _ => false
  end.

(** The record that a completed reclaim stores (lines 103-105). *)
Definition reclaimed (st : string) (d : Demo) : Demo :=
  set_image_id None (set_container_id None (set_status st d)).

(** The container that the stored record of [id] points to, if any, is
    reported as not found by the runtime. *)
Definition container_gone {E : Type} `{External E} (id : string) (w : World E)
  : Prop :=
  ∀ d c, db w !! id = Some d → container_id d = Some c →
         (containers_get c (ext w)).1 = inl NotFound.

(** *** Predicates of the further properties *)

(** The calls of a reconcile: the lookup and the save. *)
Definition reconcile_event (ev : event) : bool :=
  match ev with
  | EvGet _ | EvSave _ => true
  | _ => false
  end.

(** The calls of a reclaim, every stop with a wait of 10. *)
Definition reclaim_call (ev : event) : bool :=
  match ev with
  | EvGet _ | EvRemove _ | EvSave _ => true
  | EvStop _ t => t =? 10
  | _ => false
  end.

Definition not_uuid (ev : event) : bool := negb (is_uuid ev).

(** The statuses that a deploy stores. *)
Definition stored_by_deploy (s : string) : Prop :=
  s = "redeploying" ∨ s = "error" ∨ s = "running".

(** The container [c] is found and stopped, from the runtime state [x0]
    to [x2]. *)
Definition stopped {E : Type} `{External E} (c : string) (x0 x2 : E) : Prop :=
  ∃ k1 x1, containers_get c x0 = (inr k1, x1) ∧
           container_stop k1 10 x1 = (inr tt, x2).

(** After the stop the container [c] is out of the way, from the runtime
    state [x2] to [x]: the second lookup does not find it, or finds it
    and the removal succeeds or does not find it. *)
Definition removed {E : Type} `{External E} (c : string) (x2 x : E) : Prop :=
  containers_get c x2 = (inl NotFound, x) ∨
  ∃ k2 x3, containers_get c x2 = (inr k2, x3) ∧
           (container_remove k2 x3 = (inr tt, x) ∨
            container_remove k2 x3 = (inl NotFound, x)).

(** One of the four runtime calls of a reclaim of the container [c]
    raises [e], the calls before it having succeeded; the runtime goes
    from [x0] to [x]. *)
Definition reclaim_call_raises {E : Type} `{External E}
    (c : string) (x0 : E) (e : exn) (x : E) : Prop :=
  containers_get c x0 = (inl e, x) ∨
  (∃ k1 x1, containers_get c x0 = (inr k1, x1) ∧
            container_stop k1 10 x1 = (inl e, x)) ∨
  (∃ x2, stopped c x0 x2 ∧ containers_get c x2 = (inl e, x)) ∨
  (∃ x2 k2 x3, stopped c x0 x2 ∧ containers_get c x2 = (inr k2, x3) ∧
               container_remove k2 x3 = (inl e, x)).

(** Which of the four calls it is: the removal calls are the second
    lookup and the removal itself. *)
Definition removal_call_raises {E : Type} `{External E}
    (c : string) (x0 : E) (e : exn) (x : E) : Prop :=
  (∃ x2, stopped c x0 x2 ∧ containers_get c x2 = (inl e, x)) ∨
  (∃ x2 k2 x3, stopped c x0 x2 ∧ containers_get c x2 = (inr k2, x3) ∧
               container_remove k2 x3 = (inl e, x)).

(** Line 164: the text of the last record of the build. *)
Definition final_res (response : list json) : result string :=
  match getitem_neg response 1 with
  | inl e => inl e
  | inr last =>
      match getitem last "stream" with
      | inl e => inl e
      | inr stream => py_strip stream
      end
  end.

(** Line 171: the ID of the record before the last one, sliced. *)
Definition digest_of (response : list json) : result json :=
  match getitem_neg response 2 with
  | inl e => inl e
  | inr r =>
      match getitem r "aux" with
      | inl e => inl e
      | inr aux =>
          match getitem aux "ID" with
          | inl e => inl e
          | inr i => slice_from_7 i
          end
      end
  end.

Fixpoint string_lower (s : string) : string :=
  match s with
  | String a s' => String (ascii_lower a) (string_lower s')
  | EmptyString => EmptyString
  end.

Fixpoint string_length (s : string) : nat :=
  match s with
  | String _ s' => S (string_length s')
  | EmptyString => O
  end.

(** ** Reconcile *)

Section Reconcile.
Context {E : Type} `{External E}.

(** C3: for a demo whose container id is set (a non-empty id, the test
    of line 37), when the runtime answers the lookup with not-found,
    reconcile returns normally, the stored record is the mutated demo,
    its container id is absent and its status is empty. *)
Theorem reconcile_not_found (demo : Demo) (w : World E) (c : string) (e' : E) :
  container_id demo = Some c →
  c ≠ "" →
  containers_get c (ext w) = (inl NotFound, e') →
  ∃ demo' w',
    update_demo_status (demo, w) = (inr tt, (demo', w')) ∧
    db w' !! demo_id demo = Some demo' ∧
    container_id demo' = None ∧
    status demo' = "empty".
Proof.
  intros Hc Hne Hget.
  unfold update_demo_status, try_except, mbind, M_bind, local, gets; simpl.
  rewrite Hc.
  destruct c as [|a c']; [done|]. simpl.
  unfold on_world, docker_get, call, ask, emit, modify, mbind, M_bind; simpl.
  rewrite Hget. simpl.
  eexists _, _. split; [reflexivity|]. simpl.
  split; [by rewrite lookup_insert_eq | done].
Qed.


End Reconcile.

(** ** Traces *)

Lemma trace_grows_refl (p : event -> bool) (t : list event) :
  trace_grows p t t.
Proof. exists []. by rewrite app_nil_r. Qed.

Lemma trace_grows_snoc (p : event -> bool) (t t' : list event) (ev : event) :
  trace_grows p t t' → p ev = true → trace_grows p t (t' ++ [ev]).
Proof.
  intros (evs & -> & Hevs) Hev. exists (evs ++ [ev]).
  rewrite app_assoc. split; [done|].
  apply Forall_app. by split; [|constructor].
Qed.

Lemma trace_grows_trans (p : event -> bool) (t1 t2 t3 : list event) :
  trace_grows p t1 t2 → trace_grows p t2 t3 → trace_grows p t1 t3.
Proof.
  intros (evs & -> & Hevs) (evs' & -> & Hevs'). exists (evs ++ evs').
  rewrite app_assoc. split; [done|]. by apply Forall_app.
Qed.

Lemma trace_grows_impl (p q : event -> bool) (t t' : list event) :
  (∀ ev, p ev = true → q ev = true) →
  trace_grows p t t' → trace_grows q t t'.
Proof.
  intros Hpq (evs & -> & Hevs). exists evs. split; [done|].
  eapply Forall_impl; [exact Hevs|]. auto.
Qed.

Lemma trace_grows_elem (p : event -> bool) (t t' : list event) (ev : event) :
  trace_grows p t t' → ev ∈ t' → ev ∈ t ∨ p ev = true.
Proof.
  intros (evs & -> & Hevs) [Hin|Hin]%elem_of_app; [by left|right].
  by eapply Forall_forall in Hevs.
Qed.

Lemma trace_grows_suffix (p q q' : event -> bool) (t1 t2 t3 : list event) :
  trace_grows q t1 t2 → trace_grows q' t2 t3 → trace_grows p t1 t3 →
  trace_grows p t2 t3.
Proof.
  intros (a & -> & _) (b & -> & _) (c & Hc & Hp).
  rewrite <- app_assoc in Hc. apply app_inv_head in Hc. subst c.
  apply Forall_app in Hp as [_ Hp]. by exists b.
Qed.

Lemma trace_grows_mid (p q q' q'' : event -> bool) (t1 t2 t3 t4 : list event) :
  trace_grows q t1 t2 → trace_grows q' t2 t3 → trace_grows q'' t3 t4 →
  trace_grows p t1 t4 →
  trace_grows p t2 t3.
Proof.
  intros (a & -> & _) (b & -> & _) (c & -> & _) (e & He & Hp).
  rewrite <- !app_assoc in He. apply app_inv_head in He. subst e.
  apply Forall_app in Hp as [_ Hp]. apply Forall_app in Hp as [Hp _].
  by exists b.
Qed.

Lemma trace_grows_inv (p : event -> bool) (t evs : list event) :
  trace_grows p t (t ++ evs) → Forall (fun ev => p ev = true) evs.
Proof. intros (c & Hc & Hp). apply app_inv_head in Hc. by subst c. Qed.

Ltac trace_solve :=
  first
    [ apply trace_grows_refl
    | eexists; split;
      [ rewrite <- ?app_assoc; simpl; reflexivity
      | repeat (constructor;
                [simpl; rewrite ?String.eqb_refl; reflexivity|]);
        constructor ] ].

Ltac unfold_tasks :=
  unfold try_except, with_local, on_world, local, set_local,
    docker_get, docker_stop, docker_remove, docker_run, docker_build,
    free_port, new_uuid, get_or_none, save, write_log, call, ask, total, emit,
    gets, modify, raise_BuildError_of_one_argument, raise, of_result,
    mbind, M_bind, mret, M_ret in *.

(** ** Reclaim *)

Ltac outcome :=
  eexists _, _; (split; [reflexivity|]); simpl;
  (split; [done|]); (split; [trace_solve|]); naive_solver.

Section Reclaim.
Context {E : Type} `{External E}.

(** Without a stored record, or with a record that holds no container
    id, reclaim does nothing at all. *)
Lemma reclaim_nothing (id st : string) (w : World E) :
  (∀ d, db w !! id = Some d → truthy_str (container_id d) = false) →
  remove_demo_instance_if_exist id st w = (inr None, w).
Proof.
  intros Hd. unfold remove_demo_instance_if_exist. unfold_tasks. simpl.
  destruct (db w !! id) as [d|] eqn:Hid; [|done].
  by rewrite (Hd d eq_refl).
Qed.

(** When the runtime answers the first lookup with not-found, reclaim
    returns [None] and stores nothing. *)
Lemma reclaim_not_found (id st : string) (w : World E) (d : Demo)
    (c : string) (e' : E) :
  db w !! id = Some d →
  container_id d = Some c →
  c ≠ "" →
  containers_get c (ext w) = (inl NotFound, e') →
  remove_demo_instance_if_exist id st w
  = (inr None, mkWorld (db w) (logs w) e' (trace w ++ [EvGet c])).
Proof.
  intros Hid Hc Hne Hget.
  unfold remove_demo_instance_if_exist. unfold_tasks. simpl.
  rewrite Hid, Hc. destruct c as [|a c']; [done|]. simpl.
  by rewrite Hget.
Qed.

(** The three ways in which reclaim leaves the table: as it was,
    without returning a demo; with the record of [id] marked as error,
    raising the connection error; with the record of [id] reclaimed,
    returning it.  It calls only the runtime and the table, and never
    writes a log. *)
Lemma reclaim_outcome (id st : string) (w : World E) :
  ∃ r w',
    remove_demo_instance_if_exist id st w = (r, w') ∧
    logs w' = logs w ∧
    trace_grows reclaim_event (trace w) (trace w') ∧
    ((db w' = db w ∧ ∀ d, r ≠ inr (Some d)) ∨
     ∃ d, db w !! id = Some d ∧
          ((r = inl OrigamiDockerConnectionError ∧
            db w' = <[demo_id d := set_status "error" d]> (db w)) ∨
           (r = inr (Some (reclaimed st d)) ∧
            db w' = <[demo_id d := reclaimed st d]> (db w)))).
Proof.
  unfold remove_demo_instance_if_exist. unfold_tasks. simpl.
  destruct (db w !! id) as [d|] eqn:Hid; [|outcome].
  destruct (truthy_str (container_id d)); [|outcome].
  set (c := default "" (container_id d)).
  destruct (containers_get c (ext w)) as [[e1|k1] x1] eqn:H1; simpl.
  { destruct e1; simpl; outcome. }
  destruct (container_stop k1 10 x1) as [[e2|[]] x2] eqn:H2; simpl.
  { destruct e2; simpl; outcome. }
  destruct (containers_get c x2) as [[e3|k3] x3] eqn:H3; simpl.
  { destruct e3; simpl; outcome. }
  destruct (container_remove k3 x3) as [[e4|[]] x4] eqn:H4; simpl.
  { destruct e4; simpl; outcome. }
  outcome.
Qed.

(** A reclaim that returned the demo leaves its record without a
    container id, so the container counts as gone afterwards. *)
Lemma reclaim_done_gone (id st : string) (w w1 : World E) (d1 : Demo) :
  db_wf (db w) →
  remove_demo_instance_if_exist id st w = (inr (Some d1), w1) →
  container_gone id w1.
Proof.
  intros Hwf Hrun.
  destruct (reclaim_outcome id st w) as (r & w' & Hrun' & _ & _ & Hdb).
  rewrite Hrun in Hrun'. injection Hrun' as <- <-.
  destruct Hdb as [[_ Hno]|(d & Hid & [[? _]|[_ Hdb]])]; [|done|].
  - by destruct (Hno d1).
  - intros d' c' Hd' Hc'. rewrite Hdb, (Hwf _ _ Hid), lookup_insert_eq in Hd'.
    by simplify_eq.
Qed.

(** C2: reclaim called twice in succession, nothing else touching the
    world in between.  Once the container is gone after the first call
    (the stored record holds no container id, or the runtime answers
    not-found for it), the second call returns [None] without raising
    and the table after it is the table after the first call. *)
Theorem reclaim_idempotent (id st : string) (w w1 w2 : World E)
    (r1 r2 : result (option Demo)) :
  remove_demo_instance_if_exist id st w = (r1, w1) →
  remove_demo_instance_if_exist id st w1 = (r2, w2) →
  container_gone id w1 →
  r2 = inr None ∧ db w2 = db w1.
Proof.
  intros _ Hsecond Hgone.
  destruct (db w1 !! id) as [d|] eqn:Hid.
  - destruct (container_id d) as [[|a c]|] eqn:Hc.
    + rewrite reclaim_nothing in Hsecond; [by simplify_eq|].
      intros d' ?. simplify_eq. by rewrite Hc.
    + specialize (Hgone d _ Hid Hc).
      destruct (containers_get (String a c) (ext w1)) as [r e'] eqn:Hget.
      simpl in Hgone. subst r.
      erewrite reclaim_not_found in Hsecond by done. by simplify_eq.
    + rewrite reclaim_nothing in Hsecond; [by simplify_eq|].
      intros d' ?. simplify_eq. by rewrite Hc.
  - rewrite reclaim_nothing in Hsecond; [by simplify_eq|].
    intros d' ?. simplify_eq.
Qed.

End Reclaim.

(** ** Deploy *)

Ltac trace_absurd H :=
  exfalso; revert H; rewrite <- ?app_assoc; simpl;
  intros H%trace_grows_inv; revert H; rewrite ?Forall_cons; simpl;
  intuition discriminate.

Ltac body_outcome :=
  eexists _, _, _; (split; [reflexivity|]); simpl;
  split_and!; try done; try trace_solve;
  intros;
  first
    [ done
    | by left
    | by right
    | match goal with H : trace_grows not_run _ _ |- _ => trace_absurd H end
    | split; [done|trace_solve] ].

Section Deploy.
Context {E : Type} `{External E}.
Variable cfg : Constants.

(** Extracting the image id reads the records only. *)
Lemma image_id_of_log_state {S : Type} (response : list json) (s : S) :
  (image_id_of_log response s).2 = s.
Proof.
  unfold image_id_of_log, parse_image_id. unfold_tasks. simpl.
  repeat case_match; simplify_eq/=; done.
Qed.

Lemma image_id_of_log_indep {S S' : Type} (response : list json)
    (s : S) (s' : S') :
  (image_id_of_log response s).1 = (image_id_of_log response s').1.
Proof.
  unfold image_id_of_log, parse_image_id. unfold_tasks. simpl.
  repeat case_match; simplify_eq/=; done.
Qed.

Lemma build_and_run_eq (id : string) (d : Demo) (w : World E) :
  build_and_run cfg id (d, w)
  = match cli_build (DOCKER_UNIX_SOCKET cfg) (dockerfile_dir cfg id) (ext w) with
    | (inl e, x) => (inl e, (d, after_build cfg w id x))
    | (inr response, x) =>
        match image_id_of_log response (d, after_log cfg w id d response x) with
        | (inl e, s) => (inl e, s)
        | (inr image_id, s) => launch cfg id image_id s
        end
    end.
Proof.
  unfold build_and_run, after_build, after_log. unfold_tasks. simpl.
  destruct (cli_build _ _ _) as [[e|response] x]; simpl; [done|].
  rewrite <- app_assoc. done.
Qed.

(** What the outer [try] of deploy does to the local demo and the world:
    the table is not touched, the demo keeps its identity and its log id,
    a normal end leaves the status at running or error, a demo that has a
    port keeps it without a call to the allocator, and so does a demo for
    which no run call is made. *)
Lemma try_build_and_run_outcome (id : string) (d : Demo) (w : World E) :
  ∃ r d' w',
    try_build_and_run cfg id (d, w) = (r, (d', w')) ∧
    db w' = db w ∧
    demo_id d' = demo_id d ∧
    log_id d' = log_id d ∧
    trace_grows (build_run_event (DOCKER_UNIX_SOCKET cfg) (dockerfile_dir cfg id))
                (trace w) (trace w') ∧
    (r = inr tt → status d' = "running" ∨ status d' = "error") ∧
    (truthy_int (port d) = true →
     port d' = port d ∧ trace_grows not_free_port (trace w) (trace w')) ∧
    (trace_grows not_run (trace w) (trace w') →
     port d' = port d ∧ trace_grows not_free_port (trace w) (trace w')).
Proof.
  unfold try_build_and_run, try_except. rewrite build_and_run_eq.
  destruct (cli_build _ _ _) as [[e|response] x]; simpl.
  { unfold after_build. destruct e; simpl; body_outcome. }
  pose proof (image_id_of_log_state response (d, after_log cfg w id d response x)) as Hs.
  destruct (image_id_of_log response _) as [[e|img] s']; simpl in Hs; subst s'.
  { unfold after_log. destruct e; simpl; body_outcome. }
  unfold launch, after_log. unfold_tasks. simpl.
  destruct (truthy_int (port d)) eqn:Hp; simpl.
  - destruct (containers_run _ _ _ _ _) as [[e|k] x']; simpl;
      [destruct e; simpl|]; body_outcome.
  - destruct (get_a_free_port x) as [p x1]; simpl.
    destruct (containers_run _ _ _ _ _) as [[e|k] x']; simpl;
      [destruct e; simpl|]; body_outcome.
Qed.

(** Deploy, step by step: the reclaim, the early return, the demo that is
    loaded or created, the outer [try], the final save. *)
Lemma deploy_demo_eq (id dir : string) (w : World E) :
  deploy_demo cfg id dir w
  = let '(r1, w1) := remove_demo_instance_if_exist id "redeploying" w in
    match r1 with
    | inl e =>
        if cls_OrigamiDockerConnectionError e then (inr tt, w1) else (inl e, w1)
    | inr _ =>
        let '(rd, w2) := load_or_create id w1 in
        match rd with
        | inl e => (inl e, w2)
        | inr d =>
            let '(r, (d', w3)) := try_build_and_run cfg id (d, w2) in
            match r with
            | inl e => (inl e, w3)
            | inr _ => (inr tt, saved d' w3)
            end
        end
    end.
Proof.
  unfold deploy_demo, try_except, with_local, mbind, M_bind, mret, M_ret.
  destruct (remove_demo_instance_if_exist id "redeploying" w) as [[e|o] w1]; simpl.
  { by destruct e. }
  destruct (load_or_create id w1) as [[e|d] w2]; [done|].
  destruct (try_build_and_run cfg id (d, w2)) as [[e|[]] [d' w3]]; done.
Qed.

Lemma load_or_create_outcome (id : string) (w : World E) :
  ∃ d w',
    load_or_create id w = (inr d, w') ∧
    db w' = db w ∧
    logs w' = logs w ∧
    trace_grows is_uuid (trace w) (trace w') ∧
    (db w !! id = Some d ∨
     db w !! id = None ∧ demo_id d = id ∧ port d = None ∧ status d = "deploying").
Proof.
  unfold load_or_create. unfold_tasks. simpl.
  destruct (db w !! id) as [d|] eqn:Hid.
  - eexists _, _. split; [done|]. repeat split; try done; [trace_solve|by left].
  - destruct (uuid4_hex (ext w)) as [u x]. simpl.
    eexists _, _. split; [done|]. repeat split; try done; [trace_solve|by right].
Qed.

Lemma db_wf_insert (m : gmap string Demo) (k : string) (d : Demo) :
  db_wf m → demo_id d = k → db_wf (<[k := d]> m).
Proof.
  intros Hwf Hd k' d' Hk. destruct (decide (k = k')) as [<-|Hne].
  - rewrite lookup_insert_eq in Hk. by simplify_eq.
  - rewrite lookup_insert_ne in Hk by done. by apply Hwf.
Qed.

(** Reclaim keeps the table keyed by [demo_id], keeps every record in
    place and keeps every port. *)
Lemma reclaim_keeps (id st : string) (w w1 : World E)
    (r1 : result (option Demo)) :
  db_wf (db w) →
  remove_demo_instance_if_exist id st w = (r1, w1) →
  db_wf (db w1) ∧ ∀ k, port <$> db w1 !! k = port <$> db w !! k.
Proof.
  intros Hwf Hrun.
  destruct (reclaim_outcome id st w) as (r & w' & Hrun' & _ & _ & Hdb).
  rewrite Hrun in Hrun'. injection Hrun' as <- <-.
  destruct Hdb as [[-> _]|(d & Hid & [[_ ->]|[_ ->]])]; [done| |].
  all: split; [by apply db_wf_insert|].
  all: intros k; simpl; rewrite (Hwf _ _ Hid).
  all: destruct (decide (id = k)) as [<-|Hne];
    [by rewrite lookup_insert_eq, Hid | by rewrite lookup_insert_ne].
Qed.

(** The demo that deploy works on carries the id it was asked for. *)
Lemma load_or_create_id (id : string) (w w' : World E) (d : Demo) :
  db_wf (db w) →
  load_or_create id w = (inr d, w') →
  demo_id d = id.
Proof.
  intros Hwf Hload.
  destruct (load_or_create_outcome id w) as (d0 & w0 & Hload' & _ & _ & _ & Hd).
  rewrite Hload in Hload'. simplify_eq.
  destruct Hd as [Hd|(_ & Hd & _)]; [by apply Hwf|done].
Qed.

(** A deploy whose initial reclaim did not raise the connection error
    (no early return) and that returns normally: the stored record of
    the demo has status running or error.  A deploy that an exception
    leaves is not covered. *)
Theorem deploy_final_status (id dir : string) (w w1 w' : World E)
    (r1 : result (option Demo)) :
  db_wf (db w) →
  remove_demo_instance_if_exist id "redeploying" w = (r1, w1) →
  r1 ≠ inl OrigamiDockerConnectionError →
  deploy_demo cfg id dir w = (inr tt, w') →
  ∃ d, db w' !! id = Some d ∧ (status d = "running" ∨ status d = "error").
Proof.
  intros Hwf Hreclaim Hr1. rewrite deploy_demo_eq, Hreclaim.
  destruct (reclaim_keeps _ _ _ _ _ Hwf Hreclaim) as [Hwf1 _].
  destruct r1 as [e|o].
  { by destruct e. }
  destruct (load_or_create id w1) as [[e|d] w2] eqn:Hload; [done|].
  pose proof (load_or_create_id _ _ _ _ Hwf1 Hload) as Hd.
  destruct (try_build_and_run_outcome id d w2)
    as (r & d' & w3 & -> & _ & Hid & _ & _ & Hst & _ & _).
  destruct r as [e|[]]; [done|]. intros [= <-].
  exists d'. simpl. rewrite Hid, Hd, lookup_insert_eq. auto.
Qed.

(** C5: a deploy for a demo whose stored record has a port (a non-zero
    number, the test of line 187) leaves that port in the stored record
    and does not call the port allocator, whatever way the deploy ends. *)
Theorem deploy_keeps_port (id dir : string) (w w' : World E) (d : Demo)
    (p : Z) (r : result unit) :
  db_wf (db w) →
  db w !! id = Some d →
  port d = Some p →
  p ≠ 0 →
  deploy_demo cfg id dir w = (r, w') →
  (∃ d', db w' !! id = Some d' ∧ port d' = Some p) ∧
  trace_grows not_free_port (trace w) (trace w').
Proof.
  intros Hwf Hd Hp Hp0. rewrite deploy_demo_eq.
  destruct (reclaim_outcome id "redeploying" w)
    as (r1 & w1 & Hreclaim & _ & Htr1 & _).
  rewrite Hreclaim.
  destruct (reclaim_keeps _ _ _ _ _ Hwf Hreclaim) as [Hwf1 Hport1].
  specialize (Hport1 id). rewrite Hd in Hport1. simpl in Hport1.
  destruct (db w1 !! id) as [d1|] eqn:Hd1; [|done].
  simpl in Hport1. rewrite Hp in Hport1. injection Hport1 as Hp1.
  apply (trace_grows_impl _ not_free_port) in Htr1; [|by intros []].
  destruct r1 as [e|o].
  { destruct (cls_OrigamiDockerConnectionError e); intros [= <- <-]; eauto. }
  destruct (load_or_create_outcome id w1)
    as (d2 & w2 & -> & Hdb2 & _ & Htr2 & Hd2).
  apply (trace_grows_impl _ not_free_port) in Htr2; [|by intros []].
  destruct Hd2 as [Hd2|[Hd2 _]]; [|congruence].
  assert (d2 = d1) as -> by congruence.
  destruct (try_build_and_run_outcome id d1 w2)
    as (r2 & d' & w3 & -> & Hdb3 & Hid & _ & _ & _ & Hport & _).
  destruct Hport as [Hport Htr3].
  { rewrite Hp1. simpl. by apply negb_true_iff, Z.eqb_neq. }
  assert (trace_grows not_free_port (trace w) (trace w3)) as Htr
    by eauto using trace_grows_trans.
  destruct r2 as [e|[]]; intros [= <- <-].
  - split; [|done]. exists d1. by rewrite Hdb3, Hdb2.
  - split; [|by apply trace_grows_snoc].
    exists d'. simpl. rewrite Hid, (Hwf1 _ _ Hd1), lookup_insert_eq.
    split; [done|congruence].
Qed.

(** C4: for a log that ends with the structured record of the digest
    sha256:deadbeef00 followed by the message Successfully built
    ab12cd34, whatever records come before, the image id read from the
    log is deadbeef00: the digest of the record before the last one
    without its first seven characters, not the text of the message.  In
    a deploy whose build yields such a log, this is the image id that the
    outer try leaves on the demo. *)
Theorem image_id_example :
  (∀ (S : Type) (pre : list json) (s : S),
     image_id_of_log (pre ++ [aux_record; success_record]) s
     = (inr (JStr "deadbeef00"), s)) ∧
  (∀ (id : string) (d : Demo) (w : World E) (pre : list json) (x : E),
     cli_build (DOCKER_UNIX_SOCKET cfg) (dockerfile_dir cfg id) (ext w)
     = (inr (pre ++ [aux_record; success_record]), x) →
     ∃ r d' w',
       try_build_and_run cfg id (d, w) = (r, (d', w')) ∧
       image_id d' = Some (JStr "deadbeef00")).
Proof.
  assert (∀ (S : Type) (pre : list json) (s : S),
            image_id_of_log (pre ++ [aux_record; success_record]) s
            = (inr (JStr "deadbeef00"), s)) as Himg.
  { intros S pre s. unfold image_id_of_log, parse_image_id, getitem_neg.
    unfold_tasks. rewrite rev_app_distr. reflexivity. }
  split; [exact Himg|].
  intros id d w pre x Hbuild.
  unfold try_build_and_run, try_except. rewrite build_and_run_eq, Hbuild, Himg.
  unfold launch, after_log. unfold_tasks. simpl.
  destruct (truthy_int (port d)); simpl.
  - destruct (containers_run _ _ _ _ _) as [[e|k] x']; simpl;
      [destruct e; simpl|]; by eexists _, _, _.
  - destruct (get_a_free_port x) as [p x1]; simpl.
    destruct (containers_run _ _ _ _ _) as [[e|k] x']; simpl;
      [destruct e; simpl|]; by eexists _, _, _.
Qed.

Lemma db_valid_insert (m : gmap string Demo) (k : string) (d : Demo) :
  db_valid m → valid_status (status d) → db_valid (<[k := d]> m).
Proof.
  intros Hm Hd k' d' Hk. destruct (decide (k = k')) as [<-|Hne].
  - rewrite lookup_insert_eq in Hk. by simplify_eq.
  - rewrite lookup_insert_ne in Hk by done. by eapply Hm.
Qed.

Lemma valid_status_error : valid_status "error".
Proof. unfold valid_status. auto. Qed.

Lemma reclaim_valid (id st : string) (w w' : World E)
    (r : result (option Demo)) :
  valid_status st →
  db_valid (db w) →
  remove_demo_instance_if_exist id st w = (r, w') →
  db_valid (db w').
Proof.
  intros Hst Hv Hrun.
  destruct (reclaim_outcome id st w) as (r0 & w0 & Hrun' & _ & _ & Hdb).
  rewrite Hrun in Hrun'. injection Hrun' as <- <-.
  destruct Hdb as [[-> _]|(d & Hid & [[_ ->]|[_ ->]])]; [done| |].
  - apply db_valid_insert; [done|apply valid_status_error].
  - by apply db_valid_insert.
Qed.

(** C8, as amended: reclaim with a target status of the data model, and
    deploy, keep every stored status among the five states of the data
    model.  Reconcile stores the status that the runtime reports for the
    container as it is: the stored status of the demo is then the
    reported one, and the stored statuses stay among the five states
    whenever the reported status is one of them. *)
Theorem status_invariant :
  (∀ (id st : string) (w w' : World E) (r : result (option Demo)),
     valid_status st →
     db_valid (db w) →
     remove_demo_instance_if_exist id st w = (r, w') →
     db_valid (db w')) ∧
  (∀ (id dir : string) (w w' : World E) (r : result unit),
     db_valid (db w) →
     deploy_demo cfg id dir w = (r, w') →
     db_valid (db w')) ∧
  (∀ (demo demo' : Demo) (w w' : World E) (r : result unit)
     (c : string) (k : Container) (x : E),
     container_id demo = Some c →
     c ≠ "" →
     containers_get c (ext w) = (inr k, x) →
     update_demo_status (demo, w) = (r, (demo', w')) →
     db w' !! demo_id demo = Some demo' ∧
     status demo' = cont_status k ∧
     (db_valid (db w) → valid_status (cont_status k) → db_valid (db w'))) ∧
  (∀ (demo demo' : Demo) (w w' : World E) (r : result unit),
     (∀ c k x, container_id demo = Some c →
               containers_get c (ext w) ≠ (inr k, x)) →
     db_valid (db w) →
     update_demo_status (demo, w) = (r, (demo', w')) →
     db_valid (db w')).
Proof.
  split_and!.
  - intros id st w w' r. apply reclaim_valid.
  - intros id dir w w' r Hv. rewrite deploy_demo_eq.
    destruct (remove_demo_instance_if_exist id "redeploying" w)
      as [r1 w1] eqn:Hreclaim.
    assert (db_valid (db w1)) as Hv1.
    { eapply reclaim_valid; [|done..]. unfold valid_status. auto. }
    destruct r1 as [e|o].
    { destruct (cls_OrigamiDockerConnectionError e); by intros [= <- <-]. }
    destruct (load_or_create_outcome id w1) as (d & w2 & -> & Hdb2 & _).
    destruct (try_build_and_run_outcome id d w2)
      as (r2 & d' & w3 & -> & Hdb3 & _ & _ & _ & Hst & _).
    destruct r2 as [e|[]]; intros [= <- <-].
    + by rewrite Hdb3, Hdb2.
    + simpl. apply db_valid_insert; [by rewrite Hdb3, Hdb2|].
      unfold valid_status. destruct (Hst eq_refl) as [->| ->]; auto.
  - intros demo demo' w w' r c k x Hc Hne Hget.
    unfold update_demo_status. unfold_tasks. simpl.
    rewrite Hc. destruct c as [|a c]; [done|]. simpl. rewrite Hget. simpl.
    intros [= <- <- <-]. simpl. rewrite lookup_insert_eq.
    split_and!; [done..|]. intros Hv Hk. by apply db_valid_insert.
  - intros demo demo' w w' r Hnone Hv.
    unfold update_demo_status. unfold_tasks. simpl.
    destruct (container_id demo) as [[|a c]|] eqn:Hc; simpl;
      try by intros [= <- <- <-].
    destruct (containers_get (String a c) (ext w)) as [[e|k] x] eqn:Hget; simpl.
    + destruct e; simpl; intros [= <- <- <-]; simpl; try done.
      apply db_valid_insert; [done|]. unfold valid_status. auto.
    + by destruct (Hnone _ k x eq_refl).
Qed.

(** C9, as amended: a deploy that ends before the run call is made (the
    reclaim aborts it, the build raises, or no image id is read from the
    log) does not call the port allocator and leaves the stored port of
    the demo as it was, absent if it was absent.  The port is allocated
    just before the run call: for a demo whose stored port is absent,
    when the build yields an image id and the run call raises a
    transport error, deploy returns and the record it stored has status
    error and the newly allocated port. *)
Theorem port_allocated_before_run :
  (∀ (id dir : string) (w w' : World E) (r : result unit),
     db_wf (db w) →
     deploy_demo cfg id dir w = (r, w') →
     trace_grows not_run (trace w) (trace w') →
     trace_grows not_free_port (trace w) (trace w') ∧
     db w' !! id ≫= port = db w !! id ≫= port) ∧
  (∀ (id dir : string) (w w1 w2 : World E) (o : option Demo) (d : Demo)
     (response : list json) (img : json) (x x1 x2 : E) (p : Z) (e : exn),
     db_wf (db w) →
     truthy_int (db w !! id ≫= port) = false →
     remove_demo_instance_if_exist id "redeploying" w = (inr o, w1) →
     load_or_create id w1 = (inr d, w2) →
     cli_build (DOCKER_UNIX_SOCKET cfg) (dockerfile_dir cfg id) (ext w2)
     = (inr response, x) →
     (image_id_of_log response tt).1 = inr img →
     get_a_free_port x = (p, x1) →
     containers_run img id (ORIGAMI_WRAPPED_DEMO_PORT cfg +:+ "/tcp") (Some p) x1
     = (inl e, x2) →
     transport_error e = true →
     ∃ w' d',
       deploy_demo cfg id dir w = (inr tt, w') ∧
       db w' !! id = Some d' ∧
       port d' = Some p ∧
       status d' = "error").
Proof.
  split.
  - intros id dir w w' r Hwf. rewrite deploy_demo_eq.
    destruct (reclaim_outcome id "redeploying" w)
      as (r1 & w1 & Hreclaim & _ & Htr1 & _).
    rewrite Hreclaim.
    destruct (reclaim_keeps _ _ _ _ _ Hwf Hreclaim) as [Hwf1 Hport1].
    assert (db w1 !! id ≫= port = db w !! id ≫= port) as Hp1.
    { specialize (Hport1 id). by destruct (db w1 !! id), (db w !! id); simplify_eq/=. }
    assert (trace_grows not_free_port (trace w) (trace w1)) as Hfp1.
    { eapply trace_grows_impl; [|done]. by intros []. }
    destruct r1 as [e|o].
    { destruct (cls_OrigamiDockerConnectionError e); by intros [= <- <-]. }
    destruct (load_or_create_outcome id w1)
      as (d & w2 & Hload & Hdb2 & _ & Htr2 & Hd). rewrite Hload.
    pose proof (load_or_create_id _ _ _ _ Hwf1 Hload) as Hid.
    assert (trace_grows not_free_port (trace w1) (trace w2)) as Hfp2.
    { eapply trace_grows_impl; [|done]. by intros []. }
    assert (db w1 !! id ≫= port = port d) as Hpd.
    { destruct Hd as [->|(-> & _ & -> & _)]; done. }
    destruct (try_build_and_run_outcome id d w2)
      as (r2 & d' & w3 & -> & Hdb3 & Hid' & _ & Htr3 & _ & _ & Hnr).
    assert (trace_grows not_free_port (trace w) (trace w2)) as Hfp12
      by eauto using trace_grows_trans.
    destruct r2 as [e|[]]; intros [= <- <-] Hnorun.
    + destruct Hnr as [_ Hfp3].
      { eapply (trace_grows_suffix _ not_free_port); [exact Hfp12|done..]. }
      split; [eauto using trace_grows_trans|]. by rewrite Hdb3, Hdb2.
    + simpl in Hnorun. destruct Hnr as [Hport Hfp3].
      { eapply (trace_grows_mid _ not_free_port _ is_save _ _ _
                  (trace w3 ++ [EvSave d'])); [exact Hfp12|done| |done].
        by apply trace_grows_snoc; [apply trace_grows_refl|]. }
      split.
      * apply trace_grows_snoc; [|done]. eauto using trace_grows_trans.
      * simpl. rewrite Hid', Hid, lookup_insert_eq. simpl. congruence.
  - intros id dir w w1 w2 o d response img x x1 x2 p e
      Hwf Hnoport Hreclaim Hload Hbuild Himg Halloc Hrun He.
    destruct (reclaim_keeps _ _ _ _ _ Hwf Hreclaim) as [Hwf1 Hport1].
    pose proof (load_or_create_id _ _ _ _ Hwf1 Hload) as Hid.
    assert (truthy_int (port d) = false) as Hp.
    { destruct (load_or_create_outcome id w1)
        as (d0 & w0 & Hload' & _ & _ & _ & Hd).
      rewrite Hload in Hload'. injection Hload' as <- <-.
      destruct Hd as [Hd|(_ & _ & -> & _)]; [|done].
      specialize (Hport1 id). rewrite Hd in Hport1.
      destruct (db w !! id) as [d0|]; [|done].
      simpl in Hport1, Hnoport. congruence. }
    rewrite deploy_demo_eq, Hreclaim, Hload.
    unfold try_build_and_run, try_except. rewrite build_and_run_eq, Hbuild.
    pose proof (image_id_of_log_state response
                  (d, after_log cfg w2 id d response x)) as Hs.
    pose proof (image_id_of_log_indep response
                  (d, after_log cfg w2 id d response x) tt) as Hi.
    rewrite Himg in Hi.
    destruct (image_id_of_log response (d, after_log cfg w2 id d response x))
      as [r s'].
    simpl in Hs, Hi. subst r s'.
    unfold launch, after_log. unfold_tasks. simpl.
    rewrite Hp. simpl. rewrite Halloc. simpl. rewrite Hrun. simpl.
    destruct e; try discriminate He. simpl.
    eexists _, _. split; [reflexivity|]. simpl.
    rewrite Hid, lookup_insert_eq. by split_and!.
Qed.

(** C10: the second argument of deploy is never read.  Two deploys of
    the same demo from the same world with different values of it give
    the same result and the same world, trace of calls included; and
    every build that a deploy starts is a build of the directory made of
    HOME, the configuration directory, the demos directory and the id of
    the demo. *)
Theorem deploy_ignores_demo_dir (id : string) (w : World E) :
  (∀ dir1 dir2 : string,
     deploy_demo cfg id dir1 w = deploy_demo cfg id dir2 w) ∧
  (∀ (dir : string) (r : result unit) (w' : World E),
     deploy_demo cfg id dir w = (r, w') →
     trace_grows
       (deploy_event (DOCKER_UNIX_SOCKET cfg)
          (os_path_join (HOME cfg)
             [ORIGAMI_CONFIG_DIR cfg; ORIGAMI_DEMOS_DIRNAME cfg; id]))
       (trace w) (trace w')).
Proof.
  split; [reflexivity|].
  intros dir r w'. rewrite deploy_demo_eq.
  set (ok := deploy_event _ _).
  destruct (reclaim_outcome id "redeploying" w)
    as (r1 & w1 & -> & _ & Htr1 & _).
  apply (trace_grows_impl _ ok) in Htr1; [|by intros []].
  destruct r1 as [e|o].
  { destruct (cls_OrigamiDockerConnectionError e); by intros [= <- <-]. }
  destruct (load_or_create_outcome id w1) as (d & w2 & -> & _ & _ & Htr2 & _).
  apply (trace_grows_impl _ ok) in Htr2; [|by intros []].
  destruct (try_build_and_run_outcome id d w2)
    as (r2 & d' & w3 & -> & _ & _ & _ & Htr3 & _).
  apply (trace_grows_impl _ ok) in Htr3; [|by intros []].
  assert (trace_grows ok (trace w) (trace w3)) as Htr
    by eauto using trace_grows_trans.
  destruct r2 as [e|[]]; intros [= <- <-]; [done|].
  by apply trace_grows_snoc.
Qed.

End Deploy.

(** ** The tasks on the simulated runtime *)

Lemma db_wf_rows (rows : list Demo) :
  db_wf (list_to_map ((fun r => (demo_id r, r)) <$> rows)).
Proof.
  induction rows as [|r rows IH]; simpl.
  - intros k d. by rewrite lookup_empty.
  - by apply db_wf_insert.
Qed.

Lemma db_valid_rows (rows : list Demo) :
  Forall (fun r => valid_status (status r)) rows →
  db_valid (list_to_map ((fun r => (demo_id r, r)) <$> rows)).
Proof.
  induction 1 as [|r rows Hr _ IH]; simpl.
  - intros k d. by rewrite lookup_empty.
  - by apply db_valid_insert.
Qed.

Lemma valid_status_running : valid_status "running".
Proof. unfold valid_status. auto. Qed.

(** C7: a deploy of demo1 whose build failed.  The runtime ends the
    stream of a failed build with an error record, which has no stream
    field: the read of that field on line 164 raises KeyError outside
    both try blocks.  The exception leaves deploy, the final save is not
    reached, and the stored status stays at redeploying, where the
    reclaim had put it; the log of the build was written. *)
Theorem deploy_failed_build_raises :
  let w := Sim.world [Sim.demo1] Sim.docker_failed_build in
  let '(r, w') := deploy_demo Sim.cfg "demo1" "/tmp/demo1" w in
  r = inl KeyError ∧
  status <$> db w' !! "demo1" = Some "redeploying" ∧
  logs w' !! "/srv/static/deploy_logs/log1" = Some Sim.failed_log.
Proof. vm_compute. done. Qed.

(** C1: a redeploy of demo1 whose build failed.  The initial reclaim
    removes the container and returns the demo, so deploy does not
    return early; the reclaim has stored the status redeploying.  The
    build ends with an error record, the read of its stream field on
    line 164 raises KeyError, and that exception leaves deploy before
    the final save: the last call made is the write of the log, and the
    stored status is left at redeploying, neither running nor error. *)
Theorem deploy_leaves_redeploying :
  let w := Sim.world [Sim.demo1] Sim.docker_failed_build in
  let '(r1, w1) := remove_demo_instance_if_exist "demo1" "redeploying" w in
  let '(r, w') := deploy_demo Sim.cfg "demo1" "/tmp/demo1" w in
  r1 = inr (Some (reclaimed "redeploying" Sim.demo1)) ∧
  r = inl KeyError ∧
  db w' !! "demo1" = Some (reclaimed "redeploying" Sim.demo1) ∧
  status (reclaimed "redeploying" Sim.demo1) = "redeploying" ∧
  last (trace w') = Some (EvWriteLog "/srv/static/deploy_logs/log1").
Proof. vm_compute. done. Qed.

(** The same happens past line 164: the build stopped after its first
    step, the text of the last record does not match, the handler of the
    inner try calls BuildError with one argument, and the TypeError of
    that call leaves deploy with the status at redeploying. *)
Example deploy_unfinished_build_raises :
  let w := Sim.world [Sim.demo1] Sim.docker_unfinished_build in
  let '(r, w') := deploy_demo Sim.cfg "demo1" "/tmp/demo1" w in
  r = inl TypeError ∧
  status <$> db w' !! "demo1" = Some "redeploying" ∧
  logs w' !! "/srv/static/deploy_logs/log1" = Some Sim.unfinished_log.
Proof. vm_compute. done. Qed.

(** Past line 164 nothing is absorbed either: when the last record has
    a stream field that is a str, every failure to read the image id
    ends in the TypeError of the call of BuildError with one argument,
    which no handler of deploy catches. *)
Lemma image_id_of_log_type_error {S : Type} (response : list json)
    (last : json) (text : string) (e : exn) (s : S) :
  getitem_neg response 1 = inr last →
  getitem last "stream" = inr (JStr text) →
  (image_id_of_log response s).1 = inl e →
  e = TypeError.
Proof.
  intros Hlast Hstream.
  unfold image_id_of_log, parse_image_id. unfold_tasks.
  rewrite Hlast, Hstream. simpl.
  repeat case_match; simplify_eq/=; try done;
    repeat match goal with x : exn |- _ => destruct x end;
    simplify_eq/=; congruence.
Qed.

(** The counterexample to C8 as stated: demo1 is stored with a status of
    the data model, its container has exited; reconcile stores the
    status exited, which is none of the five states. *)
Lemma reconcile_stores_exited :
  let w := Sim.world [Sim.demo1] Sim.docker_exited in
  let '(r, (demo', w')) := update_demo_status (Sim.demo1, w) in
  db_valid (db w) ∧
  r = inr tt ∧
  db w' !! "demo1" = Some demo' ∧
  status demo' = "exited" ∧
  ¬ valid_status (status demo').
Proof.
  split_and!; try (vm_compute; reflexivity).
  - apply db_valid_rows.
    constructor; [apply valid_status_running|constructor].
  - vm_compute. intros [H|[H|[H|[H|H]]]]; discriminate H.
Qed.

(** The counterexample to C9 as stated: demo2 has no record, hence no
    port; its build succeeds and the run call raises a transport error.
    Deploy returns, and the record it stored has status error, no
    container, and the port 6000 that was allocated before the call. *)
Lemma failed_run_stores_port :
  let w := Sim.world [Sim.demo1] Sim.docker_failed_run in
  let '(r, w') := deploy_demo Sim.cfg "demo2" "/tmp/demo2" w in
  db w !! "demo2" = None ∧
  r = inr tt ∧
  status <$> db w' !! "demo2" = Some "error" ∧
  container_id <$> db w' !! "demo2" = Some None ∧
  port <$> db w' !! "demo2" = Some (Some 6000) ∧
  EvFreePort ∈ trace w'.
Proof.
  vm_compute. split_and!; try reflexivity.
  repeat constructor.
Qed.

(** ** The theorems at concrete inputs *)

(** The normal return at a redeploy of demo1 whose container is up. *)
Lemma deploy_final_status_witness :
  let w := Sim.world [Sim.demo1] Sim.docker_up in
  ∃ d, db (deploy_demo Sim.cfg "demo1" "/tmp/demo1" w).2 !! "demo1" = Some d ∧
       (status d = "running" ∨ status d = "error").
Proof.
  intros w.
  apply (deploy_final_status Sim.cfg "demo1" "/tmp/demo1" w
           (remove_demo_instance_if_exist "demo1" "redeploying" w).2
           (deploy_demo Sim.cfg "demo1" "/tmp/demo1" w).2
           (remove_demo_instance_if_exist "demo1" "redeploying" w).1).
  - apply db_wf_rows.
  - vm_compute. reflexivity.
  - vm_compute. discriminate.
  - vm_compute. reflexivity.
Defined.

(** C2 at two reclaims of demo1, the first of which removes c1. *)
Lemma reclaim_idempotent_witness :
  let w := Sim.world [Sim.demo1] Sim.docker_up in
  let w1 := (remove_demo_instance_if_exist "demo1" "empty" w).2 in
  (remove_demo_instance_if_exist "demo1" "empty" w1).1 = inr None ∧
  db (remove_demo_instance_if_exist "demo1" "empty" w1).2 = db w1.
Proof.
  intros w w1.
  apply (reclaim_idempotent "demo1" "empty" w w1
           (remove_demo_instance_if_exist "demo1" "empty" w1).2
           (remove_demo_instance_if_exist "demo1" "empty" w).1
           (remove_demo_instance_if_exist "demo1" "empty" w1).1).
  - vm_compute. reflexivity.
  - vm_compute. reflexivity.
  - intros d c Hd Hc. vm_compute in Hd. injection Hd as <-. discriminate Hc.
Defined.

(** C3 at demo1 when its container is gone. *)
Lemma reconcile_not_found_witness :
  ∃ demo' w',
    update_demo_status (Sim.demo1, Sim.world [Sim.demo1] Sim.docker_empty)
    = (inr tt, (demo', w')) ∧
    db w' !! demo_id Sim.demo1 = Some demo' ∧
    container_id demo' = None ∧
    status demo' = "empty".
Proof.
  apply (reconcile_not_found Sim.demo1 (Sim.world [Sim.demo1] Sim.docker_empty)
           "c1" Sim.docker_empty).
  - reflexivity.
  - discriminate.
  - reflexivity.
Defined.


(** C4 at a build of demo1 that yields the log of a successful build. *)
Lemma image_id_example_witness :
  ∃ r d' w',
    try_build_and_run Sim.cfg "demo1"
      (Sim.demo1, Sim.world [Sim.demo1] Sim.docker_up) = (r, (d', w')) ∧
    image_id d' = Some (JStr "deadbeef00").
Proof.
  apply (proj2 (image_id_example Sim.cfg) "demo1" Sim.demo1
           (Sim.world [Sim.demo1] Sim.docker_up)
           [JDict [("stream", JStr "Step 1/1 : FROM python:3")]]
           Sim.docker_up).
  reflexivity.
Defined.

(** C5 at a redeploy of demo1, which has the port 5000. *)
Lemma deploy_keeps_port_witness :
  let w := Sim.world [Sim.demo1] Sim.docker_up in
  let w' := (deploy_demo Sim.cfg "demo1" "/tmp/demo1" w).2 in
  (∃ d', db w' !! "demo1" = Some d' ∧ port d' = Some 5000) ∧
  trace_grows not_free_port (trace w) (trace w').
Proof.
  intros w w'.
  apply (deploy_keeps_port Sim.cfg "demo1" "/tmp/demo1" w w' Sim.demo1 5000
           (deploy_demo Sim.cfg "demo1" "/tmp/demo1" w).1).
  - apply db_wf_rows.
  - vm_compute. reflexivity.
  - reflexivity.
  - discriminate.
  - vm_compute. reflexivity.
Defined.

(** C8, as amended, at a reclaim, a deploy and two reconciles of demo1. *)
Lemma status_invariant_witness :
  let w := Sim.world [Sim.demo1] Sim.docker_up in
  let w0 := Sim.world [Sim.demo1] Sim.docker_empty in
  db_valid (db (remove_demo_instance_if_exist "demo1" "empty" w).2) ∧
  db_valid (db (deploy_demo Sim.cfg "demo1" "/tmp/demo1" w).2) ∧
  db_valid (db (update_demo_status (Sim.demo1, w)).2.2) ∧
  db_valid (db (update_demo_status (Sim.demo1, w0)).2.2).
Proof.
  intros w w0.
  assert (db_valid (db w)) as Hv.
  { apply db_valid_rows. constructor; [apply valid_status_running|constructor]. }
  destruct (status_invariant Sim.cfg) as (Hreclaim & Hdeploy & Hfound & Hother).
  split_and!.
  - apply (Hreclaim "demo1" "empty" w _
             (remove_demo_instance_if_exist "demo1" "empty" w).1).
    + unfold valid_status. auto.
    + exact Hv.
    + vm_compute. reflexivity.
  - apply (Hdeploy "demo1" "/tmp/demo1" w _
             (deploy_demo Sim.cfg "demo1" "/tmp/demo1" w).1).
    + exact Hv.
    + vm_compute. reflexivity.
  - apply (Hfound Sim.demo1 (update_demo_status (Sim.demo1, w)).2.1 w
             (update_demo_status (Sim.demo1, w)).2.2
             (update_demo_status (Sim.demo1, w)).1
             "c1" (mkContainer "c1" "running") Sim.docker_up).
    + reflexivity.
    + discriminate.
    + reflexivity.
    + vm_compute. reflexivity.
    + exact Hv.
    + apply valid_status_running.
  - apply (Hother Sim.demo1 (update_demo_status (Sim.demo1, w0)).2.1 w0
             (update_demo_status (Sim.demo1, w0)).2.2
             (update_demo_status (Sim.demo1, w0)).1).
    + intros c k x Hc. injection Hc as <-. discriminate.
    + exact Hv.
    + vm_compute. reflexivity.
Defined.

(** C9, as amended, at a first deploy of demo2 whose build raises, and at
    a first deploy of demo2 whose run call raises. *)
Lemma port_allocated_before_run_witness :
  let w := Sim.world [Sim.demo1] Sim.docker_no_build in
  let w' := (deploy_demo Sim.cfg "demo2" "/tmp/demo2" w).2 in
  let v := Sim.world [Sim.demo1] Sim.docker_failed_run in
  (trace_grows not_free_port (trace w) (trace w') ∧
   db w' !! "demo2" ≫= port = db w !! "demo2" ≫= port) ∧
  (∃ v' d',
     deploy_demo Sim.cfg "demo2" "/tmp/demo2" v = (inr tt, v') ∧
     db v' !! "demo2" = Some d' ∧
     port d' = Some 6000 ∧
     status d' = "error").
Proof.
  intros w w' v.
  destruct (port_allocated_before_run Sim.cfg) as [Hbefore Hrun].
  split.
  - apply (Hbefore "demo2" "/tmp/demo2" w w'
             (deploy_demo Sim.cfg "demo2" "/tmp/demo2" w).1).
    + apply db_wf_rows.
    + vm_compute. reflexivity.
    + exists (trace w'). split; [vm_compute; reflexivity|].
      vm_compute. repeat constructor.
  - apply (Hrun "demo2" "/tmp/demo2" v v
             (load_or_create "demo2" v).2 None
             (mkDemo "demo2" "c2" "deploying" None None None)
             Sim.good_log (JStr "deadbeef00")
             (Sim.uuid Sim.docker_failed_run).2
             (Sim.alloc (Sim.uuid Sim.docker_failed_run).2).2
             (Sim.alloc (Sim.uuid Sim.docker_failed_run).2).2
             6000 APIError).
    + apply db_wf_rows.
    + vm_compute. reflexivity.
    + vm_compute. reflexivity.
    + vm_compute. reflexivity.
    + reflexivity.
    + vm_compute. reflexivity.
    + reflexivity.
    + reflexivity.
    + reflexivity.
Defined.

(** C10 at a redeploy of demo1. *)
Lemma deploy_ignores_demo_dir_witness :
  let w := Sim.world [Sim.demo1] Sim.docker_up in
  deploy_demo Sim.cfg "demo1" "/tmp/demo1" w
  = deploy_demo Sim.cfg "demo1" "/somewhere/else" w ∧
  trace_grows
    (deploy_event "unix://var/run/docker.sock" "/home/origami/.origami/demos/demo1")
    (trace w) (trace (deploy_demo Sim.cfg "demo1" "/tmp/demo1" w).2).
Proof.
  intros w.
  destruct (deploy_ignores_demo_dir Sim.cfg "demo1" w) as [Hsame Hbuild].
  split.
  - apply Hsame.
  - apply (Hbuild "/tmp/demo1" (deploy_demo Sim.cfg "demo1" "/tmp/demo1" w).1).
    vm_compute. reflexivity.
Defined.

(** The runtime cannot be reached for lookups, before and after: both
    reclaims of demo1 raise, and the second one stores what the first one
    stored. *)
Example reclaim_twice_runtime_down :
  let w := Sim.world [Sim.demo1] Sim.docker_down in
  let '(r1, w1) := remove_demo_instance_if_exist "demo1" "empty" w in
  let '(r2, w2) := remove_demo_instance_if_exist "demo1" "empty" w1 in
  r1 = inl OrigamiDockerConnectionError ∧
  r2 = inl OrigamiDockerConnectionError ∧
  status <$> db w1 !! "demo1" = Some "error" ∧
  db w2 = db w1.
Proof. vm_compute. done. Qed.

(** ** Further properties of reconcile *)

Section ReconcileMore.
Context {E : Type} `{External E}.

(** X1: a demo whose container id is absent or the empty str is left
    alone: reconcile returns, the runtime is not asked, nothing is saved,
    the demo and the world are what they were. *)
Theorem reconcile_without_container (demo : Demo) (w : World E) :
  container_id demo = None ∨ container_id demo = Some "" →
  update_demo_status (demo, w) = (inr tt, (demo, w)).
Proof.
  intros Hc. unfold update_demo_status. unfold_tasks. simpl.
  by destruct Hc as [-> | ->].
Qed.

(** X2: whatever the runtime answers, reconcile touches the record of
    its own demo only, writes no log, calls nothing but the lookup and
    the save, and leaves the id, the log id, the image id and the port of
    the demo as they were. *)
Theorem reconcile_frame (demo demo' : Demo) (w w' : World E) (r : result unit) :
  update_demo_status (demo, w) = (r, (demo', w')) →
  (∀ k, k ≠ demo_id demo → db w' !! k = db w !! k) ∧
  logs w' = logs w ∧
  trace_grows reconcile_event (trace w) (trace w') ∧
  demo_id demo' = demo_id demo ∧
  log_id demo' = log_id demo ∧
  image_id demo' = image_id demo ∧
  port demo' = port demo.
Proof.
  unfold update_demo_status. unfold_tasks. simpl.
  destruct (truthy_str (container_id demo)); simpl.
  - destruct (containers_get _ _) as [[e|k] x]; simpl.
    + destruct e; simpl; intros [= <- <- <-]; simpl;
        split_and!; try done; try trace_solve;
        intros k Hk; by rewrite lookup_insert_ne.
    + intros [= <- <- <-]; simpl.
      split_and!; try done; try trace_solve.
      intros k' Hk. by rewrite lookup_insert_ne.
  - intros [= <- <- <-]. split_and!; try done. trace_solve.
Qed.

(** X3: an exception of the lookup that is no APIError is not caught: it
    leaves reconcile as it is, with the demo and the table untouched. *)
Theorem reconcile_other_exception (demo : Demo) (w : World E) (c : string)
    (e : exn) (x : E) :
  container_id demo = Some c →
  c ≠ "" →
  containers_get c (ext w) = (inl e, x) →
  cls_APIError e = false →
  update_demo_status (demo, w)
  = (inl e, (demo, mkWorld (db w) (logs w) x (trace w ++ [EvGet c]))).
Proof.
  intros Hc Hne Hget He.
  unfold update_demo_status. unfold_tasks. simpl.
  rewrite Hc. destruct c as [|a c]; [done|]. simpl. rewrite Hget. simpl.
  by destruct e.
Qed.

(** X4: reconcile is stable after a not-found answer: the first call
    clears the container id, and a second call on the same demo object
    then does nothing, whatever the runtime would answer. *)
Theorem reconcile_twice_not_found (demo : Demo) (w : World E) (c : string)
    (x : E) :
  container_id demo = Some c →
  c ≠ "" →
  containers_get c (ext w) = (inl NotFound, x) →
  ∃ demo' w',
    update_demo_status (demo, w) = (inr tt, (demo', w')) ∧
    update_demo_status (demo', w') = (inr tt, (demo', w')).
Proof.
  intros Hc Hne Hget.
  unfold update_demo_status at 1. unfold_tasks. simpl.
  rewrite Hc. destruct c as [|a c]; [done|]. simpl. rewrite Hget. simpl.
  eexists _, _. split; [reflexivity|]. reflexivity.
Qed.

End ReconcileMore.

(** ** Further properties of reclaim *)

Section ReclaimMore.
Context {E : Type} `{External E}.

Lemma reclaim_completes_run (id st : string) (w : World E) (d : Demo)
    (c : string) (x2 x : E) :
  db w !! id = Some d →
  container_id d = Some c →
  c ≠ "" →
  stopped c (ext w) x2 →
  removed c x2 x →
  ∃ w',
    remove_demo_instance_if_exist id st w = (inr (Some (reclaimed st d)), w') ∧
    db w' = <[demo_id d := reclaimed st d]> (db w) ∧
    logs w' = logs w ∧
    ext w' = x.
Proof.
  intros Hid Hc Hne (k1 & x1 & Hget & Hstop) Hrm.
  unfold remove_demo_instance_if_exist. unfold_tasks. simpl.
  rewrite Hid, Hc. destruct c as [|a c]; [done|]. simpl.
  rewrite Hget. simpl. rewrite Hstop. simpl.
  destruct Hrm as [Hget2|(k2 & x3 & Hget2 & [Hrm|Hrm])];
    rewrite Hget2; simpl; rewrite ?Hrm; simpl; by eexists.
Qed.

(** X5: when the container is found and stopped, and is then out of the
    way (the second lookup does not find it, for instance because the
    runtime deleted it on stop, or the removal succeeds, or the removal
    does not find it because someone else removed it first), reclaim
    completes: it returns the demo with the target status and with no
    container id and no image id, and that is the record it stored. *)
Theorem reclaim_completes (id st : string) (w : World E) (d : Demo)
    (c : string) (x2 x : E) :
  db w !! id = Some d →
  container_id d = Some c →
  c ≠ "" →
  stopped c (ext w) x2 →
  removed c x2 x →
  ∃ w',
    remove_demo_instance_if_exist id st w = (inr (Some (reclaimed st d)), w') ∧
    db w' = <[demo_id d := reclaimed st d]> (db w) ∧
    logs w' = logs w ∧
    ext w' = x.
Proof. apply reclaim_completes_run. Qed.

(** X6: when the container is found but the stop does not find it any
    more, reclaim gives up quietly: it returns [None], stores nothing and
    makes no further call. *)
Theorem reclaim_stop_not_found (id st : string) (w : World E) (d : Demo)
    (c : string) (k1 : Container) (x1 x2 : E) :
  db w !! id = Some d →
  container_id d = Some c →
  c ≠ "" →
  containers_get c (ext w) = (inr k1, x1) →
  container_stop k1 10 x1 = (inl NotFound, x2) →
  remove_demo_instance_if_exist id st w
  = (inr None,
     mkWorld (db w) (logs w) x2 (trace w ++ [EvGet c; EvStop (cont_id k1) 10])).
Proof.
  intros Hid Hc Hne Hget Hstop.
  unfold remove_demo_instance_if_exist. unfold_tasks. simpl.
  rewrite Hid, Hc. destruct c as [|a c]; [done|]. simpl.
  rewrite Hget. simpl. rewrite Hstop. simpl.
  by rewrite <- app_assoc.
Qed.

Lemma reclaim_raises (id st : string) (w : World E) (d : Demo)
    (c : string) (e : exn) (x : E) :
  db w !! id = Some d →
  container_id d = Some c →
  c ≠ "" →
  reclaim_call_raises c (ext w) e x →
  transport_error e = true →
  ∃ w',
    remove_demo_instance_if_exist id st w
    = (inl OrigamiDockerConnectionError, w') ∧
    db w' = <[demo_id d := set_status "error" d]> (db w) ∧
    logs w' = logs w ∧
    ext w' = x.
Proof.
  intros Hid Hc Hne Hraise He.
  assert (e = APIError) as -> by (by destruct e).
  unfold remove_demo_instance_if_exist. unfold_tasks. simpl.
  rewrite Hid, Hc. destruct c as [|a c]; [done|]. simpl.
  destruct Hraise as [Hget|[(k1 & x1 & Hget & Hstop)|
    [(x2 & (k1 & x1 & Hget & Hstop) & Hget2)|
     (x2 & k2 & x3 & (k1 & x1 & Hget & Hstop) & Hget2 & Hrm)]]];
    rewrite Hget; simpl; rewrite ?Hstop; simpl; rewrite ?Hget2; simpl;
    rewrite ?Hrm; simpl; by eexists.
Qed.

(** X7: a transport error from any of the four runtime calls of a
    reclaim (lookup, stop, second lookup, removal) ends it the same way:
    the record is stored with status error, keeping its container id and
    its image id, and the connection error is raised. *)
Theorem reclaim_transport_error (id st : string) (w : World E) (d : Demo)
    (c : string) (e : exn) (x : E) :
  db w !! id = Some d →
  container_id d = Some c →
  c ≠ "" →
  reclaim_call_raises c (ext w) e x →
  transport_error e = true →
  ∃ w',
    remove_demo_instance_if_exist id st w
    = (inl OrigamiDockerConnectionError, w') ∧
    db w' = <[demo_id d := set_status "error" d]> (db w) ∧
    container_id (set_status "error" d) = Some c ∧
    image_id (set_status "error" d) = image_id d ∧
    ext w' = x.
Proof.
  intros Hid Hc Hne Hraise He.
  destruct (reclaim_raises id st w d c e x) as (w' & Hrun & Hdb & _ & Hx);
    try done.
  exists w'. by split_and!.
Qed.

Lemma reclaim_removal_raises (id st : string) (w : World E)
    (d : Demo) (c : string) (e : exn) (x : E) :
  db w !! id = Some d →
  container_id d = Some c →
  c ≠ "" →
  removal_call_raises c (ext w) e x →
  cls_APIError e = false →
  ∃ w',
    remove_demo_instance_if_exist id st w = (inl e, w') ∧
    db w' = db w ∧
    logs w' = logs w ∧
    ext w' = x.
Proof.
  intros Hid Hc Hne Hraise He.
  unfold remove_demo_instance_if_exist. unfold_tasks. simpl.
  rewrite Hid, Hc. destruct c as [|a c]; [done|]. simpl.
  destruct Hraise as
    [(x2 & (k1 & x1 & Hget & Hstop) & Hget2)|
     (x2 & k2 & x3 & (k1 & x1 & Hget & Hstop) & Hget2 & Hrm)];
    rewrite Hget; simpl; rewrite Hstop; simpl; rewrite Hget2; simpl;
    rewrite ?Hrm; simpl; destruct e; try discriminate He; simpl; by eexists.
Qed.

(** X8: a not-found answer of the second lookup or of the removal never
    stops a reclaim, but any other exception of these two calls does: a
    reclaim whose removal calls raise something that is no APIError lets
    that exception through and stores nothing, although the container
    was stopped. *)
Theorem reclaim_removal_other_exception (id st : string) (w : World E)
    (d : Demo) (c : string) (e : exn) (x : E) :
  db w !! id = Some d →
  container_id d = Some c →
  c ≠ "" →
  removal_call_raises c (ext w) e x →
  cls_APIError e = false →
  ∃ w',
    remove_demo_instance_if_exist id st w = (inl e, w') ∧
    db w' = db w ∧
    ext w' = x.
Proof.
  intros Hid Hc Hne Hraise He.
  destruct (reclaim_removal_raises id st w d c e x)
    as (w' & Hrun & Hdb & _ & Hx); try done.
  by exists w'.
Qed.

(** The calls of a reclaim, with the wait of every stop. *)
Lemma reclaim_calls (id st : string) (w w' : World E)
    (r : result (option Demo)) :
  remove_demo_instance_if_exist id st w = (r, w') →
  trace_grows reclaim_call (trace w) (trace w').
Proof.
  unfold remove_demo_instance_if_exist. unfold_tasks. simpl.
  destruct (db w !! id) as [d|] eqn:Hid; [|intros [= <- <-]; trace_solve].
  destruct (truthy_str (container_id d)); [|intros [= <- <-]; trace_solve].
  set (c := default "" (container_id d)).
  destruct (containers_get c (ext w)) as [[e1|k1] x1]; simpl.
  { destruct e1; simpl; intros [= <- <-]; simpl; trace_solve. }
  destruct (container_stop k1 10 x1) as [[e2|[]] x2]; simpl.
  { destruct e2; simpl; intros [= <- <-]; simpl; trace_solve. }
  destruct (containers_get c x2) as [[e3|k3] x3]; simpl.
  { destruct e3; simpl; intros [= <- <-]; simpl; trace_solve. }
  destruct (container_remove k3 x3) as [[e4|[]] x4]; simpl.
  { destruct e4; simpl; intros [= <- <-]; simpl; trace_solve. }
  intros [= <- <-]; simpl; trace_solve.
Qed.

(** X9: whatever the runtime answers, reclaim leaves the records of the
    other demos alone, writes no log, keeps the id, the log id and the
    port of the record of its demo, and calls nothing but lookups, stops
    with a wait of 10, removals and saves: no build, no run, no port
    allocation. *)
Theorem reclaim_frame (id st : string) (w w' : World E)
    (r : result (option Demo)) :
  db_wf (db w) →
  remove_demo_instance_if_exist id st w = (r, w') →
  (∀ k, k ≠ id → db w' !! k = db w !! k) ∧
  (∀ d, db w !! id = Some d →
        ∃ d', db w' !! id = Some d' ∧ demo_id d' = demo_id d ∧
              log_id d' = log_id d ∧ port d' = port d) ∧
  logs w' = logs w ∧
  trace_grows reclaim_call (trace w) (trace w').
Proof.
  intros Hwf Hrun. pose proof (reclaim_calls _ _ _ _ _ Hrun) as Htr.
  destruct (reclaim_outcome id st w) as (r0 & w0 & Hrun' & Hlogs & _ & Hdb).
  rewrite Hrun in Hrun'. injection Hrun' as <- <-.
  split_and!; try done.
  - intros k Hk.
    destruct Hdb as [[-> _]|(d & Hid & [[_ ->]|[_ ->]])]; [done| |];
      rewrite (Hwf _ _ Hid); by rewrite lookup_insert_ne.
  - intros d Hd.
    destruct Hdb as [[-> _]|(d0 & Hid & [[_ ->]|[_ ->]])]; [by exists d| |];
      assert (d0 = d) as -> by congruence;
      rewrite (Hwf _ _ Hid), lookup_insert_eq;
      (eexists; split_and!;
       [reflexivity|by apply (Hwf _ _ Hid)|done|done]).
Qed.

(** X10: what reclaim returns tells what it stored.  [None] means the
    table is untouched; a demo means that this demo, with the target
    status and neither container id nor image id, replaced the stored
    record. *)
Theorem reclaim_result (id st : string) (w w' : World E)
    (r : result (option Demo)) :
  remove_demo_instance_if_exist id st w = (r, w') →
  (r = inr None → db w' = db w) ∧
  (∀ d', r = inr (Some d') →
         status d' = st ∧ container_id d' = None ∧ image_id d' = None ∧
         ∃ d, db w !! id = Some d ∧ d' = reclaimed st d ∧
              db w' = <[demo_id d := d']> (db w)).
Proof.
  intros Hrun.
  destruct (reclaim_outcome id st w) as (r0 & w0 & Hrun' & _ & _ & Hdb).
  rewrite Hrun in Hrun'. injection Hrun' as <- <-.
  destruct Hdb as [[Hdb Hno]|(d & Hid & [[-> Hdb]|[-> Hdb]])].
  - split; [done|]. intros d' ->. by destruct (Hno d').
  - split; [done|]. intros d' [=].
  - split; [done|]. intros d' [= <-]. split_and!; try done. by exists d.
Qed.

End ReclaimMore.

(** ** Further properties of deploy *)

Section DeployMore.
Context {E : Type} `{External E}.
Variable cfg : Constants.

Lemma image_id_of_log_at {S : Type} (response : list json)
    (r : result json) (s : S) :
  (image_id_of_log response tt).1 = r →
  image_id_of_log response s = (r, s).
Proof.
  intros <-.
  pose proof (image_id_of_log_state response s) as Hs.
  pose proof (image_id_of_log_indep response s tt) as Hi.
  destruct (image_id_of_log response s) as [r' s']. simpl in *. by subst.
Qed.

(** The image id is read from the text of the last record. *)
Lemma image_id_of_log_final_res {S : Type} (response : list json) (s : S) :
  image_id_of_log response s
  = match final_res response with
    | inl e => (inl e, s)
    | inr text =>
        parse_image_id (re_match_successfully_built text) response s
    end.
Proof.
  unfold image_id_of_log, final_res. unfold_tasks.
  destruct (getitem_neg response 1) as [e|last]; [done|].
  destruct (getitem last "stream") as [e|stream]; [done|].
  by destruct (py_strip stream).
Qed.

Lemma final_res_exn (response : list json) (e : exn) :
  final_res response = inl e →
  e = IndexError ∨ e = KeyError ∨ e = TypeError ∨ e = AttributeError.
Proof.
  unfold final_res, getitem_neg, getitem, py_strip.
  repeat case_match; naive_solver.
Qed.

(** X11: when a runtime call of the initial reclaim raises a transport
    error, deploy stops there and returns normally: the record is stored
    with status error and its old container id, no log is written, and
    after the reclaim calls nothing is called, in particular no build. *)
Theorem deploy_aborts_on_transport_error (id dir : string) (w : World E)
    (d : Demo) (c : string) (e : exn) (x : E) :
  db w !! id = Some d →
  container_id d = Some c →
  c ≠ "" →
  reclaim_call_raises c (ext w) e x →
  transport_error e = true →
  ∃ w',
    deploy_demo cfg id dir w = (inr tt, w') ∧
    db w' = <[demo_id d := set_status "error" d]> (db w) ∧
    logs w' = logs w ∧
    ext w' = x ∧
    trace_grows reclaim_call (trace w) (trace w').
Proof.
  intros Hid Hc Hne Hraise He.
  destruct (reclaim_raises id "redeploying" w d c e x)
    as (w' & Hrun & Hdb & Hlogs & Hx); try done.
  exists w'. rewrite deploy_demo_eq, Hrun. simpl.
  split_and!; try done. by eapply reclaim_calls.
Qed.

(** X12: deploy absorbs nothing else from the initial reclaim.  When
    the old container was stopped and the second lookup or the removal
    then raises an exception that is neither an APIError nor the
    connection error, that exception leaves deploy: nothing is built and
    the stored record is not even marked as error. *)
Theorem deploy_reclaim_exception (id dir : string) (w : World E) (d : Demo)
    (c : string) (e : exn) (x : E) :
  db w !! id = Some d →
  container_id d = Some c →
  c ≠ "" →
  removal_call_raises c (ext w) e x →
  cls_APIError e = false →
  e ≠ OrigamiDockerConnectionError →
  ∃ w',
    deploy_demo cfg id dir w = (inl e, w') ∧
    db w' = db w ∧
    logs w' = logs w ∧
    trace_grows reclaim_call (trace w) (trace w').
Proof.
  intros Hid Hc Hne Hraise He Ho.
  destruct (reclaim_removal_raises id "redeploying" w d c e x)
    as (w' & Hrun & Hdb & Hlogs & Hx); try done.
  exists w'. rewrite deploy_demo_eq, Hrun.
  split_and!; try done; [by destruct e|by eapply reclaim_calls].
Qed.

(** The outer try when the build and the run succeed, for a demo that
    has no port yet. *)
Lemma try_first_launch (id : string) (d : Demo) (w : World E)
    (response : list json) (img : json) (x x1 x2 : E) (p : Z) (k : Container) :
  truthy_int (port d) = false →
  cli_build (DOCKER_UNIX_SOCKET cfg) (dockerfile_dir cfg id) (ext w)
  = (inr response, x) →
  (image_id_of_log response tt).1 = inr img →
  get_a_free_port x = (p, x1) →
  containers_run img id (ORIGAMI_WRAPPED_DEMO_PORT cfg +:+ "/tcp") (Some p) x1
  = (inr k, x2) →
  try_build_and_run cfg id (d, w)
  = (inr tt,
     (mkDemo (demo_id d) (log_id d) "running" (Some (cont_id k)) (Some img)
             (Some p),
      mkWorld (db w) (<[logfile_of cfg (log_id d) := response]> (logs w)) x2
        (trace w ++
           [EvBuild (DOCKER_UNIX_SOCKET cfg) (dockerfile_dir cfg id);
            EvWriteLog (logfile_of cfg (log_id d));
            EvFreePort;
            EvRun img id (ORIGAMI_WRAPPED_DEMO_PORT cfg +:+ "/tcp") (Some p)]))).
Proof.
  intros Hp Hbuild Himg Halloc Hrun.
  unfold try_build_and_run, try_except. rewrite build_and_run_eq, Hbuild.
  rewrite (image_id_of_log_at _ _ _ Himg).
  unfold launch, after_log. unfold_tasks. simpl.
  rewrite Hp. simpl. rewrite Halloc. simpl. rewrite Hrun. simpl.
  by rewrite <- !app_assoc.
Qed.

(** The outer try when the build and the run succeed, for a demo that
    has a port. *)
Lemma try_next_launch (id : string) (d : Demo) (w : World E)
    (response : list json) (img : json) (x x2 : E) (k : Container) :
  truthy_int (port d) = true →
  cli_build (DOCKER_UNIX_SOCKET cfg) (dockerfile_dir cfg id) (ext w)
  = (inr response, x) →
  (image_id_of_log response tt).1 = inr img →
  containers_run img id (ORIGAMI_WRAPPED_DEMO_PORT cfg +:+ "/tcp") (port d) x
  = (inr k, x2) →
  try_build_and_run cfg id (d, w)
  = (inr tt,
     (mkDemo (demo_id d) (log_id d) "running" (Some (cont_id k)) (Some img)
             (port d),
      mkWorld (db w) (<[logfile_of cfg (log_id d) := response]> (logs w)) x2
        (trace w ++
           [EvBuild (DOCKER_UNIX_SOCKET cfg) (dockerfile_dir cfg id);
            EvWriteLog (logfile_of cfg (log_id d));
            EvRun img id (ORIGAMI_WRAPPED_DEMO_PORT cfg +:+ "/tcp") (port d)]))).
Proof.
  intros Hp Hbuild Himg Hrun.
  unfold try_build_and_run, try_except. rewrite build_and_run_eq, Hbuild.
  rewrite (image_id_of_log_at _ _ _ Himg).
  unfold launch, after_log. unfold_tasks. simpl.
  rewrite Hp. simpl. rewrite Hrun. simpl.
  by rewrite <- !app_assoc.
Qed.

(** X13: the first deploy of a demo that has no record, when the build
    yields an image id and the run succeeds.  Deploy asks for a log id,
    builds the directory of the demo, writes the log under the log id,
    allocates a port, starts the container under the name of the demo
    with the wrapped port mapped to the allocated one, and stores, once,
    a record with status running, the id of the new container, the image
    id and the port. *)
Theorem deploy_first_success (id dir : string) (w : World E) (u : string)
    (response : list json) (img : json) (p : Z) (k : Container)
    (x0 x1 x2 x3 : E) :
  db w !! id = None →
  uuid4_hex (ext w) = (u, x0) →
  cli_build (DOCKER_UNIX_SOCKET cfg) (dockerfile_dir cfg id) x0
  = (inr response, x1) →
  (image_id_of_log response tt).1 = inr img →
  get_a_free_port x1 = (p, x2) →
  containers_run img id (ORIGAMI_WRAPPED_DEMO_PORT cfg +:+ "/tcp") (Some p) x2
  = (inr k, x3) →
  let stored :=
    mkDemo id u "running" (Some (cont_id k)) (Some img) (Some p) in
  deploy_demo cfg id dir w
  = (inr tt,
     mkWorld (<[id := stored]> (db w))
       (<[logfile_of cfg u := response]> (logs w)) x3
       (trace w ++
          [EvUuid;
           EvBuild (DOCKER_UNIX_SOCKET cfg) (dockerfile_dir cfg id);
           EvWriteLog (logfile_of cfg u);
           EvFreePort;
           EvRun img id (ORIGAMI_WRAPPED_DEMO_PORT cfg +:+ "/tcp") (Some p);
           EvSave stored])).
Proof.
  intros Hid Huuid Hbuild Himg Halloc Hrun stored.
  rewrite deploy_demo_eq, reclaim_nothing by (intros d' ?; congruence).
  unfold load_or_create. unfold_tasks. simpl. rewrite Hid, Huuid. simpl.
  erewrite try_first_launch by done. unfold saved. simpl.
  by rewrite <- !app_assoc.
Qed.

(** X14: a redeploy of a demo that has a container and a port, when the
    old container is stopped and out of the way, the build yields an
    image id and the run succeeds.  The stored record ends with status
    running, the id of the new container, the new image id, and the log
    id and the port it had; the log of the build replaces the log stored
    under that log id. *)
Theorem deploy_again_success (id dir : string) (w : World E) (d : Demo)
    (c : string) (p : Z) (response : list json) (img : json) (k : Container)
    (x2 x3 x4 x5 : E) :
  db w !! id = Some d →
  demo_id d = id →
  container_id d = Some c →
  c ≠ "" →
  port d = Some p →
  p ≠ 0 →
  stopped c (ext w) x2 →
  removed c x2 x3 →
  cli_build (DOCKER_UNIX_SOCKET cfg) (dockerfile_dir cfg id) x3
  = (inr response, x4) →
  (image_id_of_log response tt).1 = inr img →
  containers_run img id (ORIGAMI_WRAPPED_DEMO_PORT cfg +:+ "/tcp") (Some p) x4
  = (inr k, x5) →
  ∃ w',
    deploy_demo cfg id dir w = (inr tt, w') ∧
    db w'
    = <[id := mkDemo id (log_id d) "running" (Some (cont_id k)) (Some img)
                     (Some p)]> (db w) ∧
    logs w' = <[logfile_of cfg (log_id d) := response]> (logs w) ∧
    ext w' = x5.
Proof.
  intros Hid Hd Hc Hne Hp Hp0 Hstop Hrm Hbuild Himg Hrun.
  destruct (reclaim_completes_run id "redeploying" w d c x2 x3)
    as (w1 & Hreclaim & Hdb1 & Hlogs1 & Hx1); try done.
  rewrite deploy_demo_eq, Hreclaim.
  unfold load_or_create. unfold_tasks. simpl.
  rewrite Hdb1, Hd, lookup_insert_eq. simpl.
  erewrite try_next_launch; simpl; rewrite ?Hx1, ?Hp; try done.
  - eexists. split; [reflexivity|]. unfold saved. simpl.
    rewrite Hdb1, Hlogs1, Hd, insert_insert_eq. done.
  - simpl. by apply negb_true_iff, Z.eqb_neq.
Qed.

(** X15: a first deploy whose build raises a BuildError or an APIError.
    The exception is absorbed: deploy returns, and the record it stores
    for the new demo has status error and neither image id, container id
    nor port; no log is written and neither the allocator nor the run is
    called. *)
Theorem deploy_first_build_error (id dir : string) (w : World E) (u : string)
    (e : exn) (x0 x1 : E) :
  db w !! id = None →
  uuid4_hex (ext w) = (u, x0) →
  cli_build (DOCKER_UNIX_SOCKET cfg) (dockerfile_dir cfg id) x0 = (inl e, x1) →
  cls_BuildError e || cls_APIError e = true →
  let stored := mkDemo id u "error" None None None in
  deploy_demo cfg id dir w
  = (inr tt,
     mkWorld (<[id := stored]> (db w)) (logs w) x1
       (trace w ++
          [EvUuid;
           EvBuild (DOCKER_UNIX_SOCKET cfg) (dockerfile_dir cfg id);
           EvSave stored])).
Proof.
  intros Hid Huuid Hbuild He stored.
  rewrite deploy_demo_eq, reclaim_nothing by (intros d' ?; congruence).
  unfold load_or_create. unfold_tasks. simpl. rewrite Hid, Huuid. simpl.
  unfold try_build_and_run, try_except. rewrite build_and_run_eq. simpl.
  rewrite Hbuild. unfold after_build, saved. unfold_tasks.
  destruct e; try discriminate He; simpl; by rewrite <- !app_assoc.
Qed.

(** X16: an exception of the build call that is neither a BuildError nor
    an APIError (a line of the stream that is no JSON, for one) is not
    absorbed: it leaves deploy, and a demo that had no record still has
    none. *)
Theorem deploy_first_build_exception (id dir : string) (w : World E)
    (u : string) (e : exn) (x0 x1 : E) :
  db w !! id = None →
  uuid4_hex (ext w) = (u, x0) →
  cli_build (DOCKER_UNIX_SOCKET cfg) (dockerfile_dir cfg id) x0 = (inl e, x1) →
  cls_BuildError e || cls_APIError e = false →
  ∃ w',
    deploy_demo cfg id dir w = (inl e, w') ∧
    db w' = db w ∧
    logs w' = logs w.
Proof.
  intros Hid Huuid Hbuild He.
  rewrite deploy_demo_eq, reclaim_nothing by (intros d' ?; congruence).
  unfold load_or_create. unfold_tasks. simpl. rewrite Hid, Huuid. simpl.
  unfold try_build_and_run, try_except. rewrite build_and_run_eq. simpl.
  rewrite Hbuild. unfold after_build.
  destruct e; try discriminate He; simpl; by eexists.
Qed.

End DeployMore.

(** ** What deploy keeps and what it writes *)

Section DeployFrame.
Context {E : Type} `{External E}.
Variable cfg : Constants.

Lemma try_build_and_run_logs (id : string) (d d' : Demo) (w w' : World E)
    (r : result unit) :
  try_build_and_run cfg id (d, w) = (r, (d', w')) →
  match cli_build (DOCKER_UNIX_SOCKET cfg) (dockerfile_dir cfg id) (ext w) with
  | (inl _, _) => logs w' = logs w
  | (inr response, _) =>
      logs w' = <[logfile_of cfg (log_id d) := response]> (logs w)
  end.
Proof.
  unfold try_build_and_run, try_except. rewrite build_and_run_eq.
  destruct (cli_build _ _ _) as [[e|response] x]; simpl.
  { unfold after_build. destruct e; simpl; by intros [= <- <- <-]. }
  pose proof (image_id_of_log_state response
                (d, after_log cfg w id d response x)) as Hs.
  destruct (image_id_of_log response _) as [[e|img] s']; simpl in Hs; subst s'.
  { unfold after_log. destruct e; simpl; by intros [= <- <- <-]. }
  unfold launch, after_log. unfold_tasks. simpl.
  destruct (truthy_int (port d)); simpl.
  - destruct (containers_run _ _ _ _ _) as [[e|k] x']; simpl;
      [destruct e; simpl|]; by intros [= <- <- <-].
  - destruct (get_a_free_port x) as [p x1]; simpl.
    destruct (containers_run _ _ _ _ _) as [[e|k] x']; simpl;
      [destruct e; simpl|]; by intros [= <- <- <-].
Qed.

(** X17: the log of a build is kept whatever comes of it.  When the
    build call returns records, then after the outer try of deploy the
    log file of the demo holds exactly these records, whether an image
    id was read from them or not, whether the run succeeded, raised, or
    an exception is on its way out of deploy; when the build call
    raises, no log is written. *)
Theorem build_log_kept (id : string) (d d' : Demo) (w w' : World E)
    (r : result unit) :
  try_build_and_run cfg id (d, w) = (r, (d', w')) →
  (∀ response x,
     cli_build (DOCKER_UNIX_SOCKET cfg) (dockerfile_dir cfg id) (ext w)
     = (inr response, x) →
     logs w' !! logfile_of cfg (log_id d) = Some response ∧
     ∀ f, f ≠ logfile_of cfg (log_id d) → logs w' !! f = logs w !! f) ∧
  (∀ e x,
     cli_build (DOCKER_UNIX_SOCKET cfg) (dockerfile_dir cfg id) (ext w)
     = (inl e, x) →
     logs w' = logs w).
Proof.
  intros Hrun. pose proof (try_build_and_run_logs _ _ _ _ _ _ Hrun) as Hlogs.
  split.
  - intros response x Hbuild. rewrite Hbuild in Hlogs. rewrite Hlogs.
    split; [by rewrite lookup_insert_eq|].
    intros f Hf. by rewrite lookup_insert_ne.
  - intros e x Hbuild. by rewrite Hbuild in Hlogs.
Qed.

Lemma load_existing (id : string) (w : World E) (d : Demo) :
  db w !! id = Some d → load_or_create id w = (inr d, w).
Proof.
  intros Hid. unfold load_or_create. unfold_tasks. simpl. by rewrite Hid.
Qed.

(** X18: deploy works on the record of its demo alone, however it ends:
    the records of all other demos are what they were. *)
Theorem deploy_other_demos (id dir : string) (w w' : World E) (r : result unit)
    (k : string) :
  db_wf (db w) →
  deploy_demo cfg id dir w = (r, w') →
  k ≠ id →
  db w' !! k = db w !! k.
Proof.
  intros Hwf Hrun Hk. revert Hrun. rewrite deploy_demo_eq.
  destruct (reclaim_outcome id "redeploying" w)
    as (r1 & w1 & Hreclaim & _ & _ & Hdb1).
  rewrite Hreclaim.
  destruct (reclaim_keeps _ _ _ _ _ Hwf Hreclaim) as [Hwf1 _].
  assert (db w1 !! k = db w !! k) as Hk1.
  { destruct Hdb1 as [[-> _]|(d & Hid & [[_ ->]|[_ ->]])]; [done| |];
      rewrite (Hwf _ _ Hid); by rewrite lookup_insert_ne. }
  destruct r1 as [e|o].
  { destruct (cls_OrigamiDockerConnectionError e); by intros [= <- <-]. }
  destruct (load_or_create_outcome id w1) as (d & w2 & Hload & Hdb2 & _).
  rewrite Hload.
  pose proof (load_or_create_id _ _ _ _ Hwf1 Hload) as Hd.
  destruct (try_build_and_run_outcome cfg id d w2)
    as (r2 & d' & w3 & -> & Hdb3 & Hid' & _).
  destruct r2 as [e|[]]; intros [= <- <-].
  - by rewrite Hdb3, Hdb2.
  - simpl. rewrite Hid', Hd, lookup_insert_ne by done.
    by rewrite Hdb3, Hdb2.
Qed.

(** X19: the log id of a demo is given once.  A deploy of a demo that
    has a record keeps the log id of the record, however it ends, and
    never asks for a new uuid. *)
Theorem deploy_keeps_log_id (id dir : string) (w w' : World E)
    (r : result unit) (d : Demo) :
  db_wf (db w) →
  db w !! id = Some d →
  deploy_demo cfg id dir w = (r, w') →
  (∃ d', db w' !! id = Some d' ∧ log_id d' = log_id d) ∧
  trace_grows not_uuid (trace w) (trace w').
Proof.
  intros Hwf Hid. rewrite deploy_demo_eq.
  destruct (reclaim_outcome id "redeploying" w)
    as (r1 & w1 & Hreclaim & _ & Htr1 & Hdb1).
  rewrite Hreclaim.
  assert (∃ d1, db w1 !! id = Some d1 ∧ log_id d1 = log_id d ∧ demo_id d1 = id)
    as (d1 & Hid1 & Hlog1 & Hd1).
  { pose proof (Hwf _ _ Hid) as Hd.
    destruct Hdb1 as [[-> _]|(d0 & Hid0 & [[_ ->]|[_ ->]])]; [by exists d| |];
      assert (d0 = d) as -> by congruence;
      rewrite Hd, lookup_insert_eq; by eexists. }
  apply (trace_grows_impl _ not_uuid) in Htr1; [|by intros []].
  destruct r1 as [e|o].
  { destruct (cls_OrigamiDockerConnectionError e); intros [= <- <-]; eauto. }
  rewrite (load_existing _ _ _ Hid1).
  destruct (try_build_and_run_outcome cfg id d1 w1)
    as (r2 & d' & w3 & -> & Hdb3 & Hid' & Hlog' & Htr3 & _).
  apply (trace_grows_impl _ not_uuid) in Htr3; [|by intros []].
  assert (trace_grows not_uuid (trace w) (trace w3)) as Htr
    by eauto using trace_grows_trans.
  destruct r2 as [e|[]]; intros [= <- <-].
  - split; [|done]. exists d1. by rewrite Hdb3.
  - split; [|by apply trace_grows_snoc].
    exists d'. simpl. rewrite Hid', Hd1, lookup_insert_eq.
    split; [done|congruence].
Qed.

(** X20: whatever deploy stores, it stores with status redeploying,
    error or running: every record of the table after a deploy either
    was there before, unchanged, or has one of these three statuses.  In
    particular the status deploying of a new demo is never stored. *)
Theorem deploy_stored_statuses (id dir : string) (w w' : World E)
    (r : result unit) (k : string) (d' : Demo) :
  deploy_demo cfg id dir w = (r, w') →
  db w' !! k = Some d' →
  db w !! k = Some d' ∨ stored_by_deploy (status d').
Proof.
  rewrite deploy_demo_eq.
  destruct (reclaim_outcome id "redeploying" w)
    as (r1 & w1 & Hreclaim & _ & _ & Hdb1).
  rewrite Hreclaim.
  assert (∀ d1, db w1 !! k = Some d1 →
                db w !! k = Some d1 ∨ stored_by_deploy (status d1)) as Hk1.
  { intros d1.
    destruct Hdb1 as [[-> _]|(d & Hid & [[_ ->]|[_ ->]])]; [by left| |].
    all: destruct (decide (demo_id d = k)) as [<-|Hne];
      [rewrite lookup_insert_eq; intros [= <-]; right;
       unfold stored_by_deploy; simpl; auto
      |rewrite lookup_insert_ne by done; by left]. }
  destruct r1 as [e|o].
  { destruct (cls_OrigamiDockerConnectionError e); intros [= <- <-]; auto. }
  destruct (load_or_create_outcome id w1) as (d & w2 & -> & Hdb2 & _).
  destruct (try_build_and_run_outcome cfg id d w2)
    as (r2 & d2 & w3 & -> & Hdb3 & _ & _ & _ & Hst & _).
  destruct r2 as [e|[]]; intros [= <- <-].
  - rewrite Hdb3, Hdb2. auto.
  - simpl. destruct (decide (demo_id d2 = k)) as [<-|Hne].
    + rewrite lookup_insert_eq. intros [= <-]. right.
      unfold stored_by_deploy. destruct (Hst eq_refl) as [->| ->]; auto.
    + rewrite lookup_insert_ne by done. rewrite Hdb3, Hdb2. auto.
Qed.

(** X21: the read of the text of the last record is not guarded.  When
    the build call returns records whose last one has no text to offer
    (no records at all, a last record that is no dict or has no stream
    field, a stream field that is no str), the exception of that read is
    none of those the outer try absorbs: it leaves the outer try after
    the log was written, with the demo as it was and no status set. *)
Theorem final_res_exception_escapes (id : string) (d : Demo) (w : World E)
    (response : list json) (e : exn) (x : E) :
  cli_build (DOCKER_UNIX_SOCKET cfg) (dockerfile_dir cfg id) (ext w)
  = (inr response, x) →
  final_res response = inl e →
  try_build_and_run cfg id (d, w)
  = (inl e, (d, after_log cfg w id d response x)) ∧
  (e = IndexError ∨ e = KeyError ∨ e = TypeError ∨ e = AttributeError).
Proof.
  intros Hbuild Hfinal. pose proof (final_res_exn _ _ Hfinal) as He.
  split; [|done].
  unfold try_build_and_run, try_except. rewrite build_and_run_eq, Hbuild.
  rewrite image_id_of_log_final_res, Hfinal.
  by destruct He as [->|[->|[->| ->]]].
Qed.

End DeployFrame.

(** ** Further properties of the image id, the pattern and the paths *)

Lemma string_drop_short (n : nat) (s : string) :
  (string_length s ≤ n)%nat → string_drop n s = "".
Proof.
  revert s. induction n as [|n IH]; intros [|a s]; simpl; try done; try lia.
  intros Hs. apply IH. lia.
Qed.

Lemma getitem_neg_last {A : Type} (pre : list A) (a b : A) :
  getitem_neg (pre ++ [a; b]) 1 = inr b ∧ getitem_neg (pre ++ [a; b]) 2 = inr a.
Proof. unfold getitem_neg. by rewrite rev_app_distr. Qed.

Lemma image_id_of_log_text {S : Type} (response : list json) (text : string)
    (s : S) :
  final_res response = inr text →
  image_id_of_log response s
  = match re_match_successfully_built text, digest_of response with
    | Some _, inr image_id => (inr image_id, s)
    | _, _ => (inl TypeError, s)
    end.
Proof.
  intros Hfinal. rewrite image_id_of_log_final_res, Hfinal.
  unfold parse_image_id, digest_of. unfold_tasks.
  destruct (re_match_successfully_built text) as [g|]; simpl; [|done].
  destruct (getitem_neg response 2) as [e|r]; simpl; [by destruct e|].
  destruct (getitem r "aux") as [e|aux]; simpl; [by destruct e|].
  destruct (getitem aux "ID") as [e|i]; simpl; [by destruct e|].
  destruct (slice_from_7 i) as [e|v]; simpl; [by destruct e|done].
Qed.

Section ImageIdCases.
Context {E : Type} `{External E}.
Variable cfg : Constants.

(** X22: with a text in the last record, reading the image id has two
    outcomes only.  It yields the sliced ID of the record before the
    last one when the text matches the pattern and that ID can be read
    and sliced.  In every other case (no match, no record before the
    last one, no aux or ID field, an ID that cannot be sliced) a handler
    of the inner try calls BuildError with one argument, which raises
    TypeError: no BuildError is raised, the outer try of deploy absorbs
    nothing, and the TypeError leaves it after the log was written, with
    the demo as it was and no status set. *)
Theorem image_id_of_log_cases (response : list json) (text : string) :
  final_res response = inr text →
  (∀ (S : Type) (s : S),
     image_id_of_log response s
     = match re_match_successfully_built text, digest_of response with
       | Some _, inr image_id => (inr image_id, s)
       | _, _ => (inl TypeError, s)
       end) ∧
  (∀ (id : string) (d : Demo) (w : World E) (x : E),
     cli_build (DOCKER_UNIX_SOCKET cfg) (dockerfile_dir cfg id) (ext w)
     = (inr response, x) →
     re_match_successfully_built text = None ∨
     (∃ e, digest_of response = inl e) →
     try_build_and_run cfg id (d, w)
     = (inl TypeError, (d, after_log cfg w id d response x))).
Proof.
  intros Hfinal. split.
  - intros S s. by apply image_id_of_log_text.
  - intros id d w x Hbuild Hfail.
    unfold try_build_and_run, try_except. rewrite build_and_run_eq, Hbuild.
    rewrite (image_id_of_log_text _ _ _ Hfinal).
    destruct Hfail as [->|[e ->]]; [done|].
    by destruct (re_match_successfully_built text).
Qed.

End ImageIdCases.

(** X23: the ID is cut, not checked.  For a log that ends with a record
    whose aux.ID is the str [digest], followed by a record whose stream
    text matches the pattern, the image id is [digest] without its first
    seven characters, whatever these are; for a [digest] of seven
    characters or fewer it is the empty str, and no error is raised. *)
Theorem image_id_is_cut {S : Type} (pre : list json)
    (aux_items id_items last_items : list (string * json))
    (digest text g : string) (s : S) :
  dict_get last_items "stream" = Some (JStr text) →
  re_match_successfully_built (strip text) = Some g →
  dict_get aux_items "aux" = Some (JDict id_items) →
  dict_get id_items "ID" = Some (JStr digest) →
  image_id_of_log (pre ++ [JDict aux_items; JDict last_items]) s
  = (inr (JStr (string_drop 7 digest)), s) ∧
  ((string_length digest ≤ 7)%nat →
   image_id_of_log (pre ++ [JDict aux_items; JDict last_items]) s
   = (inr (JStr ""), s)).
Proof.
  intros Hstream Hmatch Haux Hid.
  assert (image_id_of_log (pre ++ [JDict aux_items; JDict last_items]) s
          = (inr (JStr (string_drop 7 digest)), s)) as Himg.
  { destruct (getitem_neg_last pre (JDict aux_items) (JDict last_items))
      as [Hlast Hprev].
    rewrite (image_id_of_log_text _ (strip text)).
    - rewrite Hmatch. unfold digest_of. rewrite Hprev. simpl.
      rewrite Haux. simpl. by rewrite Hid.
    - unfold final_res. rewrite Hlast. simpl. by rewrite Hstream. }
  split; [done|]. intros Hlen. by rewrite Himg, string_drop_short.
Qed.

(** X24: an ID that is a list is sliced like a str: the image id is then
    the list without its first seven elements, and no error is raised
    here although the value is no image id. *)
Theorem image_id_of_list {S : Type} (pre : list json)
    (aux_items id_items last_items : list (string * json))
    (ids : list json) (text g : string) (s : S) :
  dict_get last_items "stream" = Some (JStr text) →
  re_match_successfully_built (strip text) = Some g →
  dict_get aux_items "aux" = Some (JDict id_items) →
  dict_get id_items "ID" = Some (JList ids) →
  image_id_of_log (pre ++ [JDict aux_items; JDict last_items]) s
  = (inr (JList (drop 7 ids)), s).
Proof.
  intros Hstream Hmatch Haux Hid.
  destruct (getitem_neg_last pre (JDict aux_items) (JDict last_items))
    as [Hlast Hprev].
  rewrite (image_id_of_log_text _ (strip text)).
  - rewrite Hmatch. unfold digest_of. rewrite Hprev. simpl.
    rewrite Haux. simpl. by rewrite Hid.
  - unfold final_res. rewrite Hlast. simpl. by rewrite Hstream.
Qed.

Lemma ascii_lower_eqb (a b : ascii) :
  Ascii.eqb (ascii_lower a) (ascii_lower b) = true ↔
  ascii_lower a = ascii_lower b.
Proof. apply Ascii.eqb_eq. Qed.

(** The literal matches exactly the strings that begin, letters compared
    without case, with the literal. *)
Lemma match_literal_ci_spec (p t rest : string) :
  match_literal_ci p t = Some rest ↔
  ∃ s, t = s +:+ rest ∧ string_lower s = string_lower p.
Proof.
  revert t. induction p as [|a p IH]; intros t; simpl.
  - split.
    + intros [= ->]. by exists "".
    + intros ([|b s] & -> & Hs); [done|discriminate Hs].
  - destruct t as [|b t].
    + split; [done|]. intros ([|c s] & Ht & Hs); [discriminate Hs|discriminate Ht].
    + destruct (Ascii.eqb (ascii_lower a) (ascii_lower b)) eqn:Hab.
      * apply ascii_lower_eqb in Hab. rewrite IH. split.
        -- intros (s & -> & Hs). exists (String b s). simpl.
           split; [done|]. by rewrite Hs, Hab.
        -- intros ([|c s] & Ht & Hs); [discriminate Hs|].
           simpl in Ht, Hs. injection Ht as -> ->. injection Hs as _ Hs.
           by exists s.
      * split; [done|]. intros ([|c s] & Ht & Hs); [discriminate Hs|].
        simpl in Ht, Hs. injection Ht as -> ->. injection Hs as Hc _.
        assert (Ascii.eqb (ascii_lower a) (ascii_lower c) = true) as Hac
          by (by apply ascii_lower_eqb).
        congruence.
Qed.

(** X25: the success pattern looks at the beginning of the text only and
    ignores the case of letters.  For a text of code points below 256
    (every str of this model; beyond them [re.I] lets further letters
    stand for s and i): the text matches exactly when it begins with the
    words Successfully built and a space, in any mix of upper and lower
    case, and the group is then what follows up to the first newline. *)
Theorem re_match_successfully_built_spec (text g : string) :
  re_match_successfully_built text = Some g ↔
  ∃ s rest,
    text = s +:+ rest ∧
    string_lower s = "successfully built " ∧
    g = up_to_newline rest.
Proof.
  unfold re_match_successfully_built. split.
  - destruct (match_literal_ci _ text) as [rest|] eqn:Hm; [|done].
    intros [= <-]. apply match_literal_ci_spec in Hm as (s & -> & Hs).
    by exists s, rest.
  - intros (s & rest & -> & Hs & ->).
    assert (match_literal_ci "Successfully built " (s +:+ rest) = Some rest)
      as ->; [|done].
    apply match_literal_ci_spec. by exists s.
Qed.

(** An id of a demo that begins with a slash replaces the whole path:
    the directory to build is then the id itself. *)
Lemma dockerfile_dir_absolute (cfg : Constants) (rest : string) :
  dockerfile_dir cfg (String "/" rest) = String "/" rest.
Proof. reflexivity. Qed.

Section DeployPaths.
Context {E : Type} `{External E}.
Variable cfg : Constants.

Lemma deploy_builds (id dir : string) (w w' : World E) (r : result unit) :
  deploy_demo cfg id dir w = (r, w') →
  trace_grows (deploy_event (DOCKER_UNIX_SOCKET cfg) (dockerfile_dir cfg id))
              (trace w) (trace w').
Proof.
  rewrite deploy_demo_eq.
  set (ok := deploy_event _ _).
  destruct (reclaim_outcome id "redeploying" w)
    as (r1 & w1 & -> & _ & Htr1 & _).
  apply (trace_grows_impl _ ok) in Htr1; [|by intros []].
  destruct r1 as [e|o].
  { destruct (cls_OrigamiDockerConnectionError e); by intros [= <- <-]. }
  destruct (load_or_create_outcome id w1) as (d & w2 & -> & _ & _ & Htr2 & _).
  apply (trace_grows_impl _ ok) in Htr2; [|by intros []].
  destruct (try_build_and_run_outcome cfg id d w2)
    as (r2 & d' & w3 & -> & _ & _ & _ & Htr3 & _).
  apply (trace_grows_impl _ ok) in Htr3; [|by intros []].
  assert (trace_grows ok (trace w) (trace w3)) as Htr
    by eauto using trace_grows_trans.
  destruct r2 as [e|[]]; intros [= <- <-]; [done|].
  by apply trace_grows_snoc.
Qed.

(** X26: the id of the demo is trusted as a path.  For an id that begins
    with a slash, every build that deploy starts is a build of the id
    itself, a directory outside the directory of the demos. *)
Theorem deploy_builds_absolute_id (rest dir : string) (w w' : World E)
    (r : result unit) (base_url path : string) :
  deploy_demo cfg (String "/" rest) dir w = (r, w') →
  EvBuild base_url path ∈ trace w' →
  EvBuild base_url path ∈ trace w ∨ path = String "/" rest.
Proof.
  intros Hrun Hin.
  destruct (trace_grows_elem _ _ _ _ (deploy_builds _ _ _ _ _ Hrun) Hin)
    as [Hold|Hnew]; [by left|right].
  simpl in Hnew. apply andb_true_iff in Hnew as [_ Hpath].
  apply String.eqb_eq in Hpath. by rewrite Hpath, dockerfile_dir_absolute.
Qed.

End DeployPaths.

(** ** The further properties at concrete inputs *)

Lemma reconcile_without_container_witness :
  let w := Sim.world [Sim.demo0] Sim.docker_up in
  update_demo_status (Sim.demo0, w) = (inr tt, (Sim.demo0, w)).
Proof.
  intros w. apply (reconcile_without_container Sim.demo0 w). by left.
Defined.

Lemma reconcile_frame_witness :
  let w := Sim.world [Sim.demo1; Sim.demo0] Sim.docker_exited in
  let out := update_demo_status (Sim.demo1, w) in
  (∀ k, k ≠ "demo1" → db out.2.2 !! k = db w !! k) ∧
  logs out.2.2 = logs w ∧
  trace_grows reconcile_event (trace w) (trace out.2.2) ∧
  demo_id out.2.1 = "demo1" ∧
  log_id out.2.1 = "log1" ∧
  image_id out.2.1 = Some (JStr "0123abcd") ∧
  port out.2.1 = Some 5000.
Proof.
  intros w out.
  apply (reconcile_frame Sim.demo1 out.2.1 w out.2.2 out.1).
  vm_compute. reflexivity.
Defined.

Lemma reconcile_other_exception_witness :
  let w := Sim.world [Sim.demo1] Sim.docker_get_broken in
  update_demo_status (Sim.demo1, w)
  = (inl OtherError,
     (Sim.demo1,
      mkWorld (db w) (logs w) Sim.docker_get_broken (trace w ++ [EvGet "c1"]))).
Proof.
  intros w.
  apply (reconcile_other_exception Sim.demo1 w "c1" OtherError
           Sim.docker_get_broken); [reflexivity|discriminate|reflexivity..].
Defined.

Lemma reconcile_twice_not_found_witness :
  ∃ demo' w',
    update_demo_status (Sim.demo1, Sim.world [Sim.demo1] Sim.docker_empty)
    = (inr tt, (demo', w')) ∧
    update_demo_status (demo', w') = (inr tt, (demo', w')).
Proof.
  apply (reconcile_twice_not_found Sim.demo1
           (Sim.world [Sim.demo1] Sim.docker_empty) "c1" Sim.docker_empty);
    [reflexivity|discriminate|reflexivity].
Defined.

Lemma stopped_docker_up :
  stopped "c1" Sim.docker_up (Sim.with_containers [] Sim.docker_up).
Proof. exists (mkContainer "c1" "running"), Sim.docker_up. by split. Qed.

Lemma removed_docker_up :
  removed "c1" (Sim.with_containers [] Sim.docker_up)
               (Sim.with_containers [] Sim.docker_up).
Proof. by left. Qed.

Lemma reclaim_completes_witness :
  let w := Sim.world [Sim.demo1] Sim.docker_up in
  ∃ w',
    remove_demo_instance_if_exist "demo1" "empty" w
    = (inr (Some (reclaimed "empty" Sim.demo1)), w') ∧
    db w' = <[demo_id Sim.demo1 := reclaimed "empty" Sim.demo1]> (db w) ∧
    logs w' = logs w ∧
    ext w' = Sim.with_containers [] Sim.docker_up.
Proof.
  intros w.
  apply (reclaim_completes "demo1" "empty" w Sim.demo1 "c1"
           (Sim.with_containers [] Sim.docker_up)).
  - vm_compute. reflexivity.
  - reflexivity.
  - discriminate.
  - apply stopped_docker_up.
  - apply removed_docker_up.
Defined.

Lemma reclaim_stop_not_found_witness :
  let w := Sim.world [Sim.demo1] Sim.docker_stop_gone in
  remove_demo_instance_if_exist "demo1" "empty" w
  = (inr None,
     mkWorld (db w) (logs w) Sim.docker_stop_gone
       (trace w ++ [EvGet "c1"; EvStop "c1" 10])).
Proof.
  intros w.
  apply (reclaim_stop_not_found "demo1" "empty" w Sim.demo1 "c1"
           (mkContainer "c1" "running") Sim.docker_stop_gone
           Sim.docker_stop_gone).
  - vm_compute. reflexivity.
  - reflexivity.
  - discriminate.
  - reflexivity.
  - reflexivity.
Defined.

Lemma reclaim_transport_error_witness :
  let w := Sim.world [Sim.demo1] Sim.docker_stop_down in
  ∃ w',
    remove_demo_instance_if_exist "demo1" "empty" w
    = (inl OrigamiDockerConnectionError, w') ∧
    db w' = <[demo_id Sim.demo1 := set_status "error" Sim.demo1]> (db w) ∧
    container_id (set_status "error" Sim.demo1) = Some "c1" ∧
    image_id (set_status "error" Sim.demo1) = image_id Sim.demo1 ∧
    ext w' = Sim.docker_stop_down.
Proof.
  intros w.
  apply (reclaim_transport_error "demo1" "empty" w Sim.demo1 "c1" APIError
           Sim.docker_stop_down).
  - vm_compute. reflexivity.
  - reflexivity.
  - discriminate.
  - right. left. exists (mkContainer "c1" "running"), Sim.docker_stop_down.
    by split.
  - reflexivity.
Defined.

Lemma removal_raises_docker_remove_broken :
  removal_call_raises "c1" Sim.docker_remove_broken OtherError
    (Sim.with_containers [("c1", ("exited", false))] Sim.docker_remove_broken).
Proof.
  right.
  exists (Sim.with_containers [("c1", ("exited", false))] Sim.docker_remove_broken),
    (mkContainer "c1" "exited"),
    (Sim.with_containers [("c1", ("exited", false))] Sim.docker_remove_broken).
  split_and!; [|done..].
  exists (mkContainer "c1" "running"), Sim.docker_remove_broken. by split.
Qed.

Lemma reclaim_removal_other_exception_witness :
  let w := Sim.world [Sim.demo1] Sim.docker_remove_broken in
  ∃ w',
    remove_demo_instance_if_exist "demo1" "empty" w = (inl OtherError, w') ∧
    db w' = db w ∧
    ext w'
    = Sim.with_containers [("c1", ("exited", false))] Sim.docker_remove_broken.
Proof.
  intros w.
  apply (reclaim_removal_other_exception "demo1" "empty" w Sim.demo1 "c1"
           OtherError).
  - vm_compute. reflexivity.
  - reflexivity.
  - discriminate.
  - apply removal_raises_docker_remove_broken.
  - reflexivity.
Defined.

Lemma reclaim_frame_witness :
  let w := Sim.world [Sim.demo1; Sim.demo0] Sim.docker_up in
  let out := remove_demo_instance_if_exist "demo1" "empty" w in
  (∀ k, k ≠ "demo1" → db out.2 !! k = db w !! k) ∧
  (∀ d, db w !! "demo1" = Some d →
        ∃ d', db out.2 !! "demo1" = Some d' ∧ demo_id d' = demo_id d ∧
              log_id d' = log_id d ∧ port d' = port d) ∧
  logs out.2 = logs w ∧
  trace_grows reclaim_call (trace w) (trace out.2).
Proof.
  intros w out.
  apply (reclaim_frame "demo1" "empty" w out.2 out.1).
  - apply db_wf_rows.
  - vm_compute. reflexivity.
Defined.

Lemma reclaim_result_witness :
  let w := Sim.world [Sim.demo1] Sim.docker_up in
  let out := remove_demo_instance_if_exist "demo1" "empty" w in
  (out.1 = inr None → db out.2 = db w) ∧
  (∀ d', out.1 = inr (Some d') →
         status d' = "empty" ∧ container_id d' = None ∧ image_id d' = None ∧
         ∃ d, db w !! "demo1" = Some d ∧ d' = reclaimed "empty" d ∧
              db out.2 = <[demo_id d := d']> (db w)).
Proof.
  intros w out.
  apply (reclaim_result "demo1" "empty" w out.2 out.1).
  vm_compute. reflexivity.
Defined.

Lemma deploy_aborts_on_transport_error_witness :
  let w := Sim.world [Sim.demo1] Sim.docker_down in
  ∃ w',
    deploy_demo Sim.cfg "demo1" "/tmp/demo1" w = (inr tt, w') ∧
    db w' = <[demo_id Sim.demo1 := set_status "error" Sim.demo1]> (db w) ∧
    logs w' = logs w ∧
    ext w' = Sim.docker_down ∧
    trace_grows reclaim_call (trace w) (trace w').
Proof.
  intros w.
  apply (deploy_aborts_on_transport_error Sim.cfg "demo1" "/tmp/demo1" w
           Sim.demo1 "c1" APIError Sim.docker_down).
  - vm_compute. reflexivity.
  - reflexivity.
  - discriminate.
  - by left.
  - reflexivity.
Defined.

Lemma deploy_reclaim_exception_witness :
  let w := Sim.world [Sim.demo1] Sim.docker_remove_broken in
  ∃ w',
    deploy_demo Sim.cfg "demo1" "/tmp/demo1" w = (inl OtherError, w') ∧
    db w' = db w ∧
    logs w' = logs w ∧
    trace_grows reclaim_call (trace w) (trace w').
Proof.
  intros w.
  apply (deploy_reclaim_exception Sim.cfg "demo1" "/tmp/demo1" w Sim.demo1
           "c1" OtherError
           (Sim.with_containers [("c1", ("exited", false))]
              Sim.docker_remove_broken)).
  - vm_compute. reflexivity.
  - reflexivity.
  - discriminate.
  - apply removal_raises_docker_remove_broken.
  - reflexivity.
  - discriminate.
Defined.

Lemma deploy_first_success_witness :
  let w := Sim.world [Sim.demo1] Sim.docker_up in
  let stored :=
    mkDemo "demo2" "c2" "running" (Some "c3") (Some (JStr "deadbeef00"))
           (Some 6000) in
  deploy_demo Sim.cfg "demo2" "/tmp/demo2" w
  = (inr tt,
     mkWorld (<["demo2" := stored]> (db w))
       (<[logfile_of Sim.cfg "c2" := Sim.good_log]> (logs w))
       (Sim.run (JStr "deadbeef00") "demo2" "9001/tcp" (Some 6000)
          (Sim.alloc (Sim.uuid Sim.docker_up).2).2).2
       (trace w ++
          [EvUuid;
           EvBuild (DOCKER_UNIX_SOCKET Sim.cfg) (dockerfile_dir Sim.cfg "demo2");
           EvWriteLog (logfile_of Sim.cfg "c2");
           EvFreePort;
           EvRun (JStr "deadbeef00") "demo2"
             (ORIGAMI_WRAPPED_DEMO_PORT Sim.cfg +:+ "/tcp") (Some 6000);
           EvSave stored])).
Proof.
  intros w stored.
  apply (deploy_first_success Sim.cfg "demo2" "/tmp/demo2" w "c2" Sim.good_log
           (JStr "deadbeef00") 6000 (mkContainer "c3" "created")
           (Sim.uuid Sim.docker_up).2
           (Sim.uuid Sim.docker_up).2
           (Sim.alloc (Sim.uuid Sim.docker_up).2).2).
  - vm_compute. reflexivity.
  - reflexivity.
  - reflexivity.
  - vm_compute. reflexivity.
  - reflexivity.
  - reflexivity.
Defined.

Lemma deploy_again_success_witness :
  let w := Sim.world [Sim.demo1] Sim.docker_up in
  ∃ w',
    deploy_demo Sim.cfg "demo1" "/tmp/demo1" w = (inr tt, w') ∧
    db w'
    = <["demo1" := mkDemo "demo1" (log_id Sim.demo1) "running" (Some "c2")
                          (Some (JStr "deadbeef00")) (Some 5000)]> (db w) ∧
    logs w' = <[logfile_of Sim.cfg (log_id Sim.demo1) := Sim.good_log]> (logs w) ∧
    ext w'
    = (Sim.run (JStr "deadbeef00") "demo1" "9001/tcp" (Some 5000)
         (Sim.with_containers [] Sim.docker_up)).2.
Proof.
  intros w.
  apply (deploy_again_success Sim.cfg "demo1" "/tmp/demo1" w Sim.demo1 "c1"
           5000 Sim.good_log (JStr "deadbeef00") (mkContainer "c2" "created")
           (Sim.with_containers [] Sim.docker_up)
           (Sim.with_containers [] Sim.docker_up)
           (Sim.with_containers [] Sim.docker_up)).
  - vm_compute. reflexivity.
  - reflexivity.
  - reflexivity.
  - discriminate.
  - reflexivity.
  - discriminate.
  - apply stopped_docker_up.
  - apply removed_docker_up.
  - reflexivity.
  - vm_compute. reflexivity.
  - reflexivity.
Defined.

Lemma deploy_first_build_error_witness :
  let w := Sim.world [Sim.demo1] Sim.docker_no_build in
  let stored := mkDemo "demo2" "c2" "error" None None None in
  deploy_demo Sim.cfg "demo2" "/tmp/demo2" w
  = (inr tt,
     mkWorld (<["demo2" := stored]> (db w)) (logs w)
       (Sim.uuid Sim.docker_no_build).2
       (trace w ++
          [EvUuid;
           EvBuild (DOCKER_UNIX_SOCKET Sim.cfg) (dockerfile_dir Sim.cfg "demo2");
           EvSave stored])).
Proof.
  intros w stored.
  apply (deploy_first_build_error Sim.cfg "demo2" "/tmp/demo2" w "c2" APIError
           (Sim.uuid Sim.docker_no_build).2 (Sim.uuid Sim.docker_no_build).2).
  - vm_compute. reflexivity.
  - reflexivity.
  - reflexivity.
  - reflexivity.
Defined.

Lemma deploy_first_build_exception_witness :
  let w := Sim.world [Sim.demo1] Sim.docker_build_broken in
  ∃ w',
    deploy_demo Sim.cfg "demo2" "/tmp/demo2" w = (inl OtherError, w') ∧
    db w' = db w ∧
    logs w' = logs w.
Proof.
  intros w.
  apply (deploy_first_build_exception Sim.cfg "demo2" "/tmp/demo2" w "c2"
           OtherError (Sim.uuid Sim.docker_build_broken).2
           (Sim.uuid Sim.docker_build_broken).2).
  - vm_compute. reflexivity.
  - reflexivity.
  - reflexivity.
  - reflexivity.
Defined.

Lemma build_log_kept_witness :
  let w := Sim.world [Sim.demo1] Sim.docker_failed_build in
  let out := try_build_and_run Sim.cfg "demo1" (Sim.demo1, w) in
  logs out.2.2 !! logfile_of Sim.cfg "log1" = Some Sim.failed_log ∧
  ∀ f, f ≠ logfile_of Sim.cfg "log1" → logs out.2.2 !! f = logs w !! f.
Proof.
  intros w out.
  destruct (build_log_kept Sim.cfg "demo1" Sim.demo1 out.2.1 w out.2.2 out.1)
    as [Hkept _].
  - vm_compute. reflexivity.
  - apply (Hkept Sim.failed_log Sim.docker_failed_build). reflexivity.
Defined.

Lemma deploy_other_demos_witness :
  let w := Sim.world [Sim.demo1; Sim.demo0] Sim.docker_up in
  db (deploy_demo Sim.cfg "demo1" "/tmp/demo1" w).2 !! "demo0" = db w !! "demo0".
Proof.
  intros w.
  apply (deploy_other_demos Sim.cfg "demo1" "/tmp/demo1" w _
           (deploy_demo Sim.cfg "demo1" "/tmp/demo1" w).1).
  - apply db_wf_rows.
  - vm_compute. reflexivity.
  - discriminate.
Defined.

Lemma deploy_keeps_log_id_witness :
  let w := Sim.world [Sim.demo1] Sim.docker_failed_run in
  let w' := (deploy_demo Sim.cfg "demo1" "/tmp/demo1" w).2 in
  (∃ d', db w' !! "demo1" = Some d' ∧ log_id d' = "log1") ∧
  trace_grows not_uuid (trace w) (trace w').
Proof.
  intros w w'.
  apply (deploy_keeps_log_id Sim.cfg "demo1" "/tmp/demo1" w w'
           (deploy_demo Sim.cfg "demo1" "/tmp/demo1" w).1 Sim.demo1).
  - apply db_wf_rows.
  - vm_compute. reflexivity.
  - vm_compute. reflexivity.
Defined.

Lemma deploy_stored_statuses_witness :
  let w := Sim.world [Sim.demo1] Sim.docker_failed_run in
  let w' := (deploy_demo Sim.cfg "demo2" "/tmp/demo2" w).2 in
  let d' := mkDemo "demo2" "c2" "error" None (Some (JStr "deadbeef00"))
                   (Some 6000) in
  db w !! "demo2" = Some d' ∨ stored_by_deploy (status d').
Proof.
  intros w w' d'.
  apply (deploy_stored_statuses Sim.cfg "demo2" "/tmp/demo2" w w'
           (deploy_demo Sim.cfg "demo2" "/tmp/demo2" w).1 "demo2" d').
  - vm_compute. reflexivity.
  - vm_compute. reflexivity.
Defined.

Lemma final_res_exception_escapes_witness :
  let w := Sim.world [Sim.demo1] Sim.docker_failed_build in
  try_build_and_run Sim.cfg "demo1" (Sim.demo1, w)
  = (inl KeyError,
     (Sim.demo1,
      after_log Sim.cfg w "demo1" Sim.demo1 Sim.failed_log
        Sim.docker_failed_build)) ∧
  (KeyError = IndexError ∨ KeyError = KeyError ∨ KeyError = TypeError ∨
   KeyError = AttributeError).
Proof.
  intros w.
  apply (final_res_exception_escapes Sim.cfg "demo1" Sim.demo1 w
           Sim.failed_log KeyError Sim.docker_failed_build).
  - reflexivity.
  - reflexivity.
Defined.

Lemma image_id_of_log_cases_witness :
  let log := [JDict [("stream", JStr "Step 1/1 : FROM python:3")]] in
  let w := Sim.world [Sim.demo1]
             (Sim.mkDocker [] Sim.no_fault (inr log) 6000 ["c2"]) in
  image_id_of_log log tt = (inl TypeError, tt) ∧
  try_build_and_run Sim.cfg "demo1" (Sim.demo1, w)
  = (inl TypeError, (Sim.demo1, after_log Sim.cfg w "demo1" Sim.demo1 log (ext w))).
Proof.
  intros log w.
  destruct (image_id_of_log_cases Sim.cfg log "Step 1/1 : FROM python:3")
    as [Hpure Htry].
  - reflexivity.
  - split.
    + apply (Hpure unit tt).
    + apply (Htry "demo1" Sim.demo1 w (ext w)); [reflexivity|by left].
Defined.

Lemma image_id_is_cut_witness :
  let log := [JDict [("aux", JDict [("ID", JStr "abc")])];
              JDict [("stream", JStr "Successfully built abc
")]] in
  image_id_of_log ([] ++ log) tt = (inr (JStr (string_drop 7 "abc")), tt) ∧
  ((string_length "abc" ≤ 7)%nat →
   image_id_of_log ([] ++ log) tt = (inr (JStr ""), tt)).
Proof.
  intros log.
  apply (image_id_is_cut [] [("aux", JDict [("ID", JStr "abc")])]
           [("ID", JStr "abc")]
           [("stream", JStr "Successfully built abc
")]
           "abc" "Successfully built abc
" "abc" tt); reflexivity.
Defined.

Lemma image_id_of_list_witness :
  image_id_of_log
    ([] ++ [JDict [("aux", JDict [("ID", JList [JInt 1; JInt 2])])];
            JDict [("stream", JStr "Successfully built abc")]]) tt
  = (inr (JList (drop 7 [JInt 1; JInt 2])), tt).
Proof.
  apply (image_id_of_list [] [("aux", JDict [("ID", JList [JInt 1; JInt 2])])]
           [("ID", JList [JInt 1; JInt 2])]
           [("stream", JStr "Successfully built abc")]
           [JInt 1; JInt 2] "Successfully built abc" "abc" tt); reflexivity.
Defined.

Lemma re_match_successfully_built_spec_witness :
  re_match_successfully_built "SUCCESSFULLY Built ab12
next" = Some "ab12".
Proof.
  apply (proj2 (re_match_successfully_built_spec "SUCCESSFULLY Built ab12
next" "ab12")).
  exists "SUCCESSFULLY Built ", "ab12
next". by split_and!.
Defined.

Lemma deploy_builds_absolute_id_witness :
  let w := Sim.world [Sim.demo1] Sim.docker_up in
  let w' := (deploy_demo Sim.cfg "/etc" "/tmp/demo1" w).2 in
  EvBuild "unix://var/run/docker.sock" "/etc" ∈ trace w ∨ "/etc" = "/etc".
Proof.
  intros w w'.
  apply (deploy_builds_absolute_id Sim.cfg "etc" "/tmp/demo1" w w'
           (deploy_demo Sim.cfg "/etc" "/tmp/demo1" w).1
           "unix://var/run/docker.sock" "/etc").
  - vm_compute. reflexivity.
  - vm_compute. repeat constructor.
Defined.
